(** * SOP agent: ingestion, retrieval and answer synthesis

    A shallow embedding of the Python sources
    [src/utils/document_processor.py], [src/utils/vector_store.py],
    [src/utils/rag_agent.py] and of [ask_question] in [streamlit_app.py].

    Conventions.
    - A Python [str] is a [string]; its characters stand for the code
      points 0..255.  [len] is [String.length].
    - A Python [dict] with string keys is a [gmap string value].
    - A Python [float] is a binary64 [PrimFloat.float].
    - Code that can raise, print or call a collaborator lives in the
      monad [M]: a trace of events together with an exception or a value.
    - The collaborators that are not part of the repository (the file
      system, the two PDF extractors, the text splitter, the Chroma index
      and the chat model) are fields of the record [World]. *)

From Stdlib Require Import Floats.
From Stdlib Require Import Ascii String ZArith List Sorted Lia Bool.
From stdpp Require Import base option list strings gmap pretty.

Open Scope string_scope.
Open Scope nat_scope.

(** ** Python string primitives *)

Module PyStr.

(** [c.isspace()] on the code points below 256. *)
Definition is_space (c : ascii) : bool :=
  let n := nat_of_ascii c in
  ((9 <=? n) && (n <=? 13)) || ((28 <=? n) && (n <=? 32))
  || (n =? 133) || (n =? 160).

(** [c.lower()] on the code points below 256: A-Z and the Latin-1
    capitals (0xC0-0xDE without the multiplication sign 0xD7). *)
Definition lower_char (c : ascii) : ascii :=
  let n := nat_of_ascii c in
  if ((65 <=? n) && (n <=? 90))
     || ((192 <=? n) && (n <=? 222) && negb (n =? 215))
  then ascii_of_nat (n + 32) else c.

(** [s.lower()] *)
Fixpoint lower (s : string) : string :=
  match s with
  | EmptyString => EmptyString
  | String c s' => String (lower_char c) (lower s')
  end.

(** [s.startswith(p)] *)
Fixpoint startswith (p s : string) : bool :=
  match p, s with
  | EmptyString, _ => true
  | String _ _, EmptyString => false
  | String a p', String b s' => if Ascii.eqb a b then startswith p' s' else false
  end.

(** [kw in s] *)
Fixpoint contains (kw s : string) : bool :=
  startswith kw s ||
  match s with
  | EmptyString => false
  | String _ s' => contains kw s'
  end.

(** [s.endswith(suf)] *)
Fixpoint endswith (suf s : string) : bool :=
  String.eqb suf s ||
  match s with
  | EmptyString => false
  | String _ s' => endswith suf s'
  end.

(** [s.lstrip()] *)
Fixpoint lstrip (s : string) : string :=
  match s with
  | EmptyString => EmptyString
  | String c s' => if is_space c then lstrip s' else s
  end.

(** [s.rstrip()] *)
Fixpoint rstrip (s : string) : string :=
  match s with
  | EmptyString => EmptyString
  | String c s' =>
      match rstrip s' with
      | EmptyString => if is_space c then EmptyString else String c EmptyString
      | r => String c r
      end
  end.

(** [s.strip()] *)
Definition strip (s : string) : string := rstrip (lstrip s).

(** Truthiness of a string: [bool(s)]. *)
Definition truthy (s : string) : bool :=
  match s with EmptyString => false | _ => true end.

(** [os.path.basename(p)] (posixpath): what follows the last slash. *)
Fixpoint basename_from (acc p : string) : string :=
  match p with
  | EmptyString => acc
  | String c p' =>
      if Ascii.eqb c "/"%char then basename_from EmptyString p'
      else basename_from (acc ++ String c EmptyString) p'
  end.

Definition basename (p : string) : string := basename_from EmptyString p.

(** [str(n)] for a non-negative integer. *)
Definition of_nat (n : nat) : string := pretty n.

End PyStr.

(** ** Values, documents and exceptions *)

(** The Python values that occur in a metadata dict: Chroma stores
    strings, integers and booleans there; [None] is what a lookup of a
    missing key gives. *)
Inductive value :=
| VNone
| VStr (s : string)
| VInt (n : Z)
| VBool (b : bool).

(** The values of a response dict: a scalar, or the list of source
    descriptors (each a dict of scalars). *)
Inductive rvalue :=
| RVal (v : value)
| RSources (l : list (gmap string value)).

(** [langchain.schema.Document] *)
Record Document := mkDocument {
  page_content : string;
  metadata : gmap string value
}.

(** The exception classes the code raises or catches.  Every one is a
    subclass of [Exception]; the argument is [str(e)]. *)
Inductive exn :=
| FileNotFoundError (msg : string)
| ValueError (msg : string)
| KeyError (msg : string)
| AttributeError (msg : string)
| Exception (msg : string).

Definition exn_str (e : exn) : string :=
  match e with
  | FileNotFoundError m | ValueError m | KeyError m | AttributeError m
  | Exception m => m
  end.

(** [m.get(key, default)] *)
Definition dict_get (m : gmap string value) (key : string) (default : value) : value :=
  match m !! key with
  | Some v => v
  | None => default
  end.

Global Instance value_eq_dec : EqDecision value.
Proof. solve_decision. Defined.

(** How an f-string renders a value. *)
Definition value_str (v : value) : string :=
  match v with
  | VNone => "None"
  | VStr s => s
  | VInt n => pretty n
  | VBool b => if b then "True" else "False"
  end.

(** [bool(v)] *)
Definition value_truthy (v : value) : bool :=
  match v with
  | VNone => false
  | VStr s => PyStr.truthy s
  | VInt n => negb (n =? 0)%Z
  | VBool b => b
  end.

(** [bool(d)] for a dict: non-empty. *)
Definition dict_truthy (d : gmap string value) : bool := negb (size d =? 0).

(** [enumerate(l, start)] *)
Fixpoint enumerate {A : Type} (start : nat) (l : list A) : list (nat * A) :=
  match l with
  | [] => []
  | x :: l' => (start, x) :: enumerate (S start) l'
  end.

(** [sep.join(parts)] *)
Fixpoint join (sep : string) (parts : list string) : string :=
  match parts with
  | [] => ""
  | [p] => p
  | p :: rest => p ++ sep ++ join sep rest
  end.

Definition nl : string := String (ascii_of_nat 10) EmptyString.

(** ** Effects: a trace of events and an exception or a value *)

Inductive event :=
| EvPrint (line : string)
| EvPdfplumber (path : string)
| EvFitz (path : string)
| EvSearch (query : string) (k : Z) (filter : option (gmap string value))
| EvPredict (prompt : string)
| EvStError (msg : string)
| EvStSpinner (msg : string)
| EvStSuccess (msg : string)
| EvStExpander (label : string)
| EvStWrite (msg : string).

Definition M (A : Type) : Type := (list event * (exn + A))%type.

Definition ret {A} (a : A) : M A := ([], inr a).

Definition bind {A B} (m : M A) (f : A -> M B) : M B :=
  match m with
  | (t, inl e) => (t, inl e)
  | (t, inr a) => let '(t', r) := f a in ((t ++ t')%list, r)
  end.

Definition raise {A} (e : exn) : M A := ([], inl e).

(** [try: m  except Exception as e: h e] *)
Definition try_catch {A} (m : M A) (h : exn -> M A) : M A :=
  match m with
  | (t, inl e) => let '(t', r) := h e in ((t ++ t')%list, r)
  | (t, inr a) => (t, inr a)
  end.

Definition emit (ev : event) : M unit := ([ev], inr tt).

Definition print (line : string) : M unit := emit (EvPrint line).

(** The outcome of a collaborator call, lifted into [M]. *)
Definition lift {A} (r : exn + A) : M A := ([], r).

Definition trace {A} (m : M A) : list event := fst m.
Definition outcome {A} (m : M A) : exn + A := snd m.

Declare Scope m_scope.
Delimit Scope m_scope with M.
Notation "x <- m ;; k" := (bind m (fun x => k))
  (at level 100, m at next level, right associativity) : m_scope.
Notation "m ;; k" := (bind m (fun _ => k))
  (at level 100, right associativity) : m_scope.
Open Scope m_scope.

Definition is_search (ev : event) : bool :=
  match ev with EvSearch _ _ _ => true | _ => false end.

Definition is_predict (ev : event) : bool :=
  match ev with EvPredict _ => true | _ => false end.

(** ** Product classifier: [DocumentProcessor.detect_product_type] *)

Definition supported_products : list string :=
  ["everbridge"; "inner_range"; "milestone"; "general"].

Definition detect_product_type (text filename : string) : string :=
  let text_lower := PyStr.lower text in
  let filename_lower := PyStr.lower filename in
  if PyStr.contains "everbridge" text_lower || PyStr.contains "everbridge" filename_lower
  then "everbridge"
  else if PyStr.contains "inner range" text_lower
          || PyStr.contains "inner_range" filename_lower
          || PyStr.contains "innerrange" filename_lower
  then "inner_range"
  else if PyStr.contains "milestone" text_lower || PyStr.contains "milestone" filename_lower
  then "milestone"
  else "general".

(** The classifier as the specification words it: one keyword list per
    category, each keyword looked for in both the text and the filename,
    categories tried in priority order. *)
Definition matches_any (kws : list string) (text filename : string) : bool :=
  existsb (fun kw => PyStr.contains kw (PyStr.lower text)
                     || PyStr.contains kw (PyStr.lower filename)) kws.

Definition classify_uniform (kw_everbridge kw_inner_range kw_milestone : list string)
    (text filename : string) : string :=
  if matches_any kw_everbridge text filename then "everbridge"
  else if matches_any kw_inner_range text filename then "inner_range"
  else if matches_any kw_milestone text filename then "milestone"
  else "general".

(** ** Ingestion: [DocumentProcessor] *)

(** The collaborators of the ingestion pipeline.
    - [path_exists] is [os.path.exists].
    - [pdfplumber_pages p] is what [pdfplumber.open(p)] yields: the
      results of [page.extract_text()] for the pages read, and the
      exception that interrupted the reading, if any.
    - [fitz_pages p] is the same for [fitz.open(p)] and [page.get_text()].
    - [split_text] is [RecursiveCharacterTextSplitter.split_text] as
      configured in [__init__]. *)
Record DocumentProcessor := {
  path_exists : string -> bool;
  pdfplumber_pages : string -> list (option string) * option exn;
  fitz_pages : string -> list string * option exn;
  split_text : string -> list string
}.

(** One round of the loop over [pdf.pages]. *)
Definition add_plumber_page (text : string) (page_text : option string) : string :=
  match page_text with
  | Some t => if PyStr.truthy t then text ++ (t ++ nl) else text
  | None => text
  end.

(** One round of the loop over the pages of [doc]. *)
Definition add_fitz_page (text : string) (page_text : string) : string :=
  text ++ (page_text ++ nl).

(** [extract_text_from_pdf].  [text] is a local variable assigned inside
    the [try] block, so what the first extractor appended before it
    failed is still there when the second one runs. *)
Definition extract_text_from_pdf (dp : DocumentProcessor) (file_path : string) : M string :=
  emit (EvPdfplumber file_path) ;;
  let '(pages, failure) := pdfplumber_pages dp file_path in
  let text := fold_left add_plumber_page pages "" in
  match failure with
  | None => ret (PyStr.strip text)
  | Some e =>
      print ("Error with pdfplumber: " ++ exn_str e ++ ", trying PyMuPDF...") ;;
      emit (EvFitz file_path) ;;
      let '(pages2, failure2) := fitz_pages dp file_path in
      let text := fold_left add_fitz_page pages2 text in
      match failure2 with
      | None => ret (PyStr.strip text)
      | Some e2 =>
          print ("Error with PyMuPDF: " ++ exn_str e2) ;;
          raise (Exception ("Could not extract text from PDF: " ++ exn_str e2))
      end
  end.

(** The metadata dict built for chunk [i]. *)
Definition chunk_metadata (filename file_path product_type : string)
    (i total : nat) : gmap string value :=
  <["total_chunks" := VInt (Z.of_nat total)]>
  (<["chunk_index" := VInt (Z.of_nat i)]>
  (<["product_type" := VStr product_type]>
  (<["file_path" := VStr file_path]>
  (<["source" := VStr filename]> ∅)))).

(** The loop [for i, chunk in enumerate(chunks)]. *)
Definition build_documents (filename file_path product_type : string)
    (chunks : list string) : list Document :=
  fold_left
    (fun documents '(i, chunk) =>
       (documents ++
        [mkDocument chunk
           (chunk_metadata filename file_path product_type i (length chunks))])%list)
    (enumerate 0 chunks) [].

Definition process_document (dp : DocumentProcessor) (file_path : string)
    (product_type : option string) : M (list Document) :=
  if negb (path_exists dp file_path)
  then raise (FileNotFoundError ("File not found: " ++ file_path))
  else if negb (PyStr.endswith ".pdf" (PyStr.lower file_path))
  then raise (ValueError "Currently only PDF files are supported")
  else
    text <- extract_text_from_pdf dp file_path ;;
    if negb (PyStr.truthy (PyStr.strip text))
    then raise (ValueError "No text could be extracted from the PDF")
    else
      let filename := PyStr.basename file_path in
      let product_type :=
        match product_type with
        | None => detect_product_type text filename
        | Some p => p
        end in
      let chunks := split_text dp text in
      ret (build_documents filename file_path product_type chunks).

(** [product_types[file_path]] when [product_types] is a non-empty dict
    holding the key, [None] otherwise. *)
Definition lookup_product_type (product_types : option (gmap string string))
    (file_path : string) : option string :=
  match product_types with
  | Some d => d !! file_path
  | None => None
  end.

(** The loop of [process_multiple_documents], [all_documents] being the
    accumulator. *)
Fixpoint process_loop (dp : DocumentProcessor) (file_paths : list string)
    (product_types : option (gmap string string))
    (all_documents : list Document) : M (list Document) :=
  match file_paths with
  | [] => ret all_documents
  | file_path :: rest =>
      all_documents' <-
        try_catch
          (let product_type := lookup_product_type product_types file_path in
           documents <- process_document dp file_path product_type ;;
           print ("Processed " ++ PyStr.of_nat (length documents)
                  ++ " chunks from " ++ PyStr.basename file_path) ;;
           ret (all_documents ++ documents)%list)
          (fun e =>
             print ("Error processing " ++ file_path ++ ": " ++ exn_str e) ;;
             ret all_documents) ;;
      process_loop dp rest product_types all_documents'
  end.

Definition process_multiple_documents (dp : DocumentProcessor)
    (file_paths : list string) (product_types : option (gmap string string))
    : M (list Document) :=
  process_loop dp file_paths product_types [].

(** ** Retrieval: [VectorStoreManager] *)

(** The Chroma collection behind [self.vectorstore].  The third argument
    of [similarity_search_with_score] is the [filter] keyword: [None]
    when the call passes no filter. *)
Record Chroma := {
  similarity_search_with_score :
    string -> Z -> option (gmap string value) -> exn + list (Document * float)
}.

(** [self.vectorstore] is [None] when the initialisation failed. *)
Record VectorStoreManager := {
  vectorstore : option Chroma
}.

Definition call_similarity_search (vs : Chroma) (query : string) (k : Z)
    (filter : option (gmap string value)) : M (list (Document * float)) :=
  emit (EvSearch query k filter) ;;
  lift (similarity_search_with_score vs query k filter).

(** [product_filter and product_filter != "all"] *)
Definition filter_requested (product_filter : option string) : bool :=
  match product_filter with
  | Some pf => PyStr.truthy pf && negb (String.eqb pf "all")
  | None => false
  end.

(** The dict [filter_dict] after the first [if]. *)
Definition make_filter_dict (product_filter : option string) : gmap string value :=
  match product_filter with
  | Some pf =>
      if filter_requested product_filter
      then <["product_type" := VStr pf]> ∅
      else ∅
  | None => ∅
  end.

(** One round of the loop [for doc, score in results]. *)
Definition keep_if_close (score_threshold : float)
    (filtered_results : list Document) (r : Document * float) : list Document :=
  let '(doc, score) := r in
  if PrimFloat.leb score score_threshold
  then (filtered_results ++ [doc])%list
  else filtered_results.

Definition default_k : Z := 5%Z.
Definition default_score_threshold : float := 0.5%float.

Definition search_documents (vsm : VectorStoreManager) (query : string) (k : Z)
    (product_filter : option string) (score_threshold : float) : M (list Document) :=
  match vectorstore vsm with
  | None => print "Vectorstore not initialized" ;; ret []
  | Some vs =>
      try_catch
        (let filter_dict := make_filter_dict product_filter in
         results <-
           (if dict_truthy filter_dict
            then call_similarity_search vs query k (Some filter_dict)
            else call_similarity_search vs query k None) ;;
         ret (fold_left (keep_if_close score_threshold) results []))
        (fun e => print ("Error searching documents: " ++ exn_str e) ;; ret [])
  end.

(** ** Answer synthesis: [RAGAgent] *)

(** The chat model behind [self.llm]; [predict] may raise. *)
Record ChatOpenAI := {
  predict : string -> exn + string
}.

(** [self.llm] is [None] when the constructor of the model raised. *)
Record RAGAgent := {
  vector_store : VectorStoreManager;
  llm : option ChatOpenAI
}.

Definition call_predict (model : ChatOpenAI) (prompt : string) : M string :=
  emit (EvPredict prompt) ;; lift (predict model prompt).

Definition template_head : string :=
"You are a helpful assistant that provides step-by-step procedures based on product manuals and Standard Operating Procedures (SOPs).

Context from relevant documents:
".

Definition template_middle : string :=
"

Human Question: ".

Definition template_tail : string :=
"

Instructions:
1. Analyze the provided context carefully
2. If the question is about a specific procedure, provide clear step-by-step instructions
3. Reference the specific document/manual when possible
4. If the context doesn't contain enough information, say so clearly
5. Focus on actionable steps and procedures
6. Include any safety warnings or important notes from the source material

Answer:".

(** [self.prompt_template.format(context=..., question=...)] *)
Definition format_prompt (context question : string) : string :=
  template_head ++ context ++ template_middle ++ question ++ template_tail.

Definition retrieve_relevant_documents (agent : RAGAgent) (query : string)
    (product_filter : option string) (k : Z) : M (list Document) :=
  search_documents (vector_store agent) query k product_filter default_score_threshold.

(** The f-string of one context section. *)
Definition context_part (i : nat) (doc : Document) : string :=
  let source := dict_get (metadata doc) "source" (VStr "Unknown") in
  let product_type := dict_get (metadata doc) "product_type" (VStr "Unknown") in
  nl ++ "Document " ++ PyStr.of_nat i ++ ":" ++ nl
  ++ "Source: " ++ value_str source ++ " (Product: " ++ value_str product_type ++ ")" ++ nl
  ++ "Content: " ++ page_content doc ++ nl
  ++ "---".

Definition format_context (documents : list Document) : string :=
  match documents with
  | [] => "No relevant documents found."
  | _ =>
      let context_parts :=
        fold_left (fun parts '(i, doc) => (parts ++ [context_part i doc])%list)
                  (enumerate 1 documents) [] in
      join nl context_parts
  end.

(** The source descriptor appended for one retrieved document. *)
Definition source_of (doc : Document) : gmap string value :=
  <["chunk_index" := dict_get (metadata doc) "chunk_index" (VInt 0)]>
  (<["product_type" := dict_get (metadata doc) "product_type" (VStr "Unknown")]>
  (<["source" := dict_get (metadata doc) "source" (VStr "Unknown")]> ∅)).

(** An optional string as a Python value. *)
Definition of_optional (o : option string) : value :=
  match o with
  | Some s => VStr s
  | None => VNone
  end.

(** The three-key dict returned on the paths that produce no answer. *)
Definition plain_response (answer : string) (product_filter : option string)
    : gmap string rvalue :=
  <["product_filter" := RVal (of_optional product_filter)]>
  (<["sources" := RSources []]>
  (<["answer" := RVal (VStr answer)]> ∅)).

Definition generate_answer (agent : RAGAgent) (query : string)
    (product_filter : option string) (k : Z) : M (gmap string rvalue) :=
  match llm agent with
  | None =>
      ret (plain_response
             "Error: Language model not available. Please check your OpenAI API key."
             product_filter)
  | Some model =>
      relevant_docs <- retrieve_relevant_documents agent query product_filter k ;;
      match relevant_docs with
      | [] =>
          ret (plain_response
                 ("I couldn't find relevant information in the uploaded documents for your query about: '"
                  ++ query
                  ++ "'. Please make sure you have uploaded the appropriate manuals or SOPs, or try rephrasing your question.")
                 product_filter)
      | _ =>
          let context := format_context relevant_docs in
          try_catch
            (let prompt := format_prompt context query in
             response <- call_predict model prompt ;;
             let sources :=
               fold_left (fun sources doc => (sources ++ [source_of doc])%list)
                         relevant_docs [] in
             ret (<["num_sources" := RVal (VInt (Z.of_nat (length relevant_docs)))]>
                  (<["product_filter" := RVal (of_optional product_filter)]>
                  (<["sources" := RSources sources]>
                  (<["answer" := RVal (VStr (PyStr.strip response))]> ∅)))))
            (fun e =>
               ret (plain_response ("Error generating response: " ++ exn_str e)
                                   product_filter))
      end
  end.

Definition validation_result (valid : bool) (message : string) : gmap string value :=
  <["message" := VStr message]> (<["valid" := VBool valid]> ∅).

Definition validate_query (query : string) : gmap string value :=
  if negb (PyStr.truthy query) || (String.length (PyStr.strip query) <? 3)
  then validation_result false
         "Please enter a more specific question (at least 3 characters)."
  else if 1000 <? String.length query
  then validation_result false
         "Question is too long. Please keep it under 1000 characters."
  else validation_result true "Query is valid.".

(** ** The query form of the front-end: [ask_question] *)

(** What [ask_question] reads and writes in [st.session_state].  Either
    attribute may be missing: [main] sets [search_k] in the settings tab
    and creates [conversation_history] only after the question form. *)
Record session_state := {
  search_k : option Z;
  conversation_history : option (list (string * gmap string rvalue))
}.

(** [st.session_state.conversation_history]: reading a missing attribute
    raises [AttributeError]. *)
Definition read_history (st : session_state)
    : M (list (string * gmap string rvalue)) :=
  match conversation_history st with
  | Some history => ret history
  | None => raise (AttributeError "conversation_history")
  end.

(** [d[key]] on a validation or source dict. *)
Definition dict_index (d : gmap string value) (key : string) : M value :=
  match d !! key with
  | Some v => ret v
  | None => raise (KeyError key)
  end.

(** [response[key]] *)
Definition response_index (r : gmap string rvalue) (key : string) : M rvalue :=
  match r !! key with
  | Some v => ret v
  | None => raise (KeyError key)
  end.

(** [bool(v)] and [str(v)] for a value of a response dict. *)
Definition rvalue_truthy (v : rvalue) : bool :=
  match v with
  | RVal v => value_truthy v
  | RSources l => match l with [] => false | _ => true end
  end.

Definition rvalue_sources (v : rvalue) : list (gmap string value) :=
  match v with
  | RVal _ => []
  | RSources l => l
  end.

Definition rvalue_str (v : rvalue) : string :=
  match v with
  | RVal v => value_str v
  | RSources _ => "[...]"
  end.

(** The line written for source number [i]. *)
Definition write_source (i : nat) (source : gmap string value) : M unit :=
  s <- dict_index source "source" ;;
  p <- dict_index source "product_type" ;;
  c <- dict_index source "chunk_index" ;;
  emit (EvStWrite ("**" ++ PyStr.of_nat i ++ ".** " ++ value_str s
                   ++ " (Product: " ++ value_str p
                   ++ ", Chunk: " ++ value_str c ++ ")")).

Fixpoint write_sources (l : list (nat * gmap string value)) : M unit :=
  match l with
  | [] => ret tt
  | (i, source) :: l' => write_source i source ;; write_sources l'
  end.

(** [ask_question].  The result is the session state afterwards.  The
    label of the expander starts with a pictograph that lies outside the
    modelled character range; it is left out. *)
Definition ask_question (st : session_state) (question product_filter : string)
    (agent : RAGAgent) : M session_state :=
  let validation := validate_query question in
  valid <- dict_index validation "valid" ;;
  if negb (value_truthy valid)
  then
    message <- dict_index validation "message" ;;
    emit (EvStError (value_str message)) ;;
    ret st
  else
    emit (EvStSpinner "Searching documents and generating answer...") ;;
    let k := match search_k st with Some k => k | None => 5%Z end in
    response <-
      generate_answer agent question
        (if negb (String.eqb product_filter "all") then Some product_filter else None)
        k ;;
    history <- read_history st ;;
    let st' := {| search_k := search_k st;
                  conversation_history :=
                    Some (history ++ [(question, response)])%list |} in
    emit (EvStSuccess "Answer generated successfully!") ;;
    emit (EvStWrite "**Answer:**") ;;
    answer <- response_index response "answer" ;;
    emit (EvStWrite (rvalue_str answer)) ;;
    match response !! "sources" with
    | Some sources =>
        if rvalue_truthy sources
        then
          sources <- response_index response "sources" ;;
          emit (EvStExpander ("Sources (" ++ PyStr.of_nat (length (rvalue_sources sources))
                              ++ " documents)")) ;;
          write_sources (enumerate 1 (rvalue_sources sources)) ;;
          ret st'
        else ret st'
    | None => ret st'
    end.

(** ** A list-backed index

    A small in-memory stand-in for the Chroma collection: the stored
    documents in insertion order and the distance of each one to a query.
    A search keeps the documents whose metadata agree with the filter,
    orders them by ascending distance (earlier insertions first among
    equals) and returns the first [k]. *)

Module ListIndex.

Record t := {
  store : list Document;
  distance : string -> Document -> float
}.

Definition agrees (filter : option (gmap string value)) (d : Document) : bool :=
  match filter with
  | None => true
  | Some f => bool_decide (map_Forall (fun key v => metadata d !! key = Some v) f)
  end.

Fixpoint insert_scored (x : Document * float) (l : list (Document * float))
    : list (Document * float) :=
  match l with
  | [] => [x]
  | y :: l' =>
      if PrimFloat.leb (snd x) (snd y) then x :: y :: l'
      else y :: insert_scored x l'
  end.

Definition sort_scored (l : list (Document * float)) : list (Document * float) :=
  fold_right insert_scored [] l.

Definition search (idx : t) (query : string) (k : Z)
    (filter : option (gmap string value)) : list (Document * float) :=
  firstn (Z.to_nat k)
    (sort_scored
       (map (fun d => (d, distance idx query d))
            (List.filter (agrees filter) (store idx)))).

Definition as_chroma (idx : t) : Chroma :=
  {| similarity_search_with_score := fun query k filter => inr (search idx query k filter) |}.

End ListIndex.

(** ** Specification vocabulary *)

(** [kw] occurs in [s] when letter case is ignored. *)
Definition occurs_ci (kw s : string) : Prop :=
  exists pre post, PyStr.lower s = pre ++ kw ++ post.

(** The [filter] argument of the index search that a product filter
    leads to. *)
Definition search_filter (product_filter : option string) : option (gmap string value) :=
  match product_filter with
  | Some pf =>
      if PyStr.truthy pf && negb (String.eqb pf "all")
      then Some {["product_type" := VStr pf]}
      else None
  | None => None
  end.

(** What the index search hands back for a call of [search_documents]:
    nothing when there is no index or the search raises. *)
Definition index_results (vsm : VectorStoreManager) (query : string) (k : Z)
    (product_filter : option string) : list (Document * float) :=
  match vectorstore vsm with
  | None => []
  | Some vs =>
      match similarity_search_with_score vs query k (search_filter product_filter) with
      | inr results => results
      | inl _ => []
      end
  end.

(** The distance of a result is at most the threshold. *)
Definition within (score_threshold : float) (r : Document * float) : Prop :=
  PrimFloat.leb (snd r) score_threshold = true.

(** The distance of a result exceeds the threshold. *)
Definition exceeds (score_threshold : float) (r : Document * float) : Prop :=
  PrimFloat.ltb score_threshold (snd r) = true.

(** The document is tagged with product category [X]. *)
Definition has_category (X : string) (d : Document) : Prop :=
  metadata d !! "product_type" = Some (VStr X).

(** The index honours a category filter on the search for [query] and
    [k]: every result it returns for the filter on category [X] is tagged
    with [X]. *)
Definition honours_filter (vsm : VectorStoreManager) (query : string) (k : Z)
    (X : string) : Prop :=
  forall vs results,
    vectorstore vsm = Some vs ->
    similarity_search_with_score vs query k (Some {["product_type" := VStr X]})
      = inr results ->
    Forall (fun r => has_category X (fst r)) results.


(** The chunk records of one document of a batch, none if it fails. *)
Definition chunks_or_none (dp : DocumentProcessor)
    (product_types : option (gmap string string)) (file_path : string)
    : list Document :=
  match outcome (process_document dp file_path
                   (lookup_product_type product_types file_path)) with
  | inr documents => documents
  | inl _ => []
  end.

(** The dict returned when the model gave a completion. *)
Definition success_response (docs : list Document) (response : string)
    (product_filter : option string) : gmap string rvalue :=
  <["num_sources" := RVal (VInt (Z.of_nat (length docs)))]>
  (<["product_filter" := RVal (of_optional product_filter)]>
  (<["sources" := RSources (map source_of docs)]>
  (<["answer" := RVal (VStr (PyStr.strip response))]> ∅))).

(** The paths of [generate_answer]. *)
Inductive answer_path (agent : RAGAgent) (query : string)
    (product_filter : option string) (k : Z) : M (gmap string rvalue) -> Prop :=
| path_no_model :
    llm agent = None ->
    answer_path agent query product_filter k
      ([], inr (plain_response
                  "Error: Language model not available. Please check your OpenAI API key."
                  product_filter))
| path_no_documents model t :
    llm agent = Some model ->
    retrieve_relevant_documents agent query product_filter k = (t, inr []) ->
    answer_path agent query product_filter k
      (t, inr (plain_response
                 ("I couldn't find relevant information in the uploaded documents for your query about: '"
                  ++ query
                  ++ "'. Please make sure you have uploaded the appropriate manuals or SOPs, or try rephrasing your question.")
                 product_filter))
| path_model_raises model t docs e :
    llm agent = Some model ->
    retrieve_relevant_documents agent query product_filter k = (t, inr docs) ->
    docs <> [] ->
    predict model (format_prompt (format_context docs) query) = inl e ->
    answer_path agent query product_filter k
      ((t ++ [EvPredict (format_prompt (format_context docs) query)])%list,
       inr (plain_response ("Error generating response: " ++ exn_str e) product_filter))
| path_success model t docs response :
    llm agent = Some model ->
    retrieve_relevant_documents agent query product_filter k = (t, inr docs) ->
    docs <> [] ->
    predict model (format_prompt (format_context docs) query) = inr response ->
    answer_path agent query product_filter k
      ((t ++ [EvPredict (format_prompt (format_context docs) query)])%list,
       inr (success_response docs response product_filter)).

(** The value under [key] in the response a computation returns. *)
Definition response_field (m : M (gmap string rvalue)) (key : string) : option rvalue :=
  match outcome m with
  | inr r => r !! key
  | inl _ => None
  end.

(** ** Sample collaborators *)

Module Sample.

Definition manual_a : Document :=
  mkDocument "reset the panel" (chunk_metadata "a.pdf" "/d/a.pdf" "inner_range" 0 1).

Definition manual_b0 : Document :=
  mkDocument "camera setup" (chunk_metadata "b.pdf" "/d/b.pdf" "milestone" 0 2).

Definition manual_b1 : Document :=
  mkDocument "camera removal" (chunk_metadata "b.pdf" "/d/b.pdf" "milestone" 1 2).

(** Distances 0.25, 0.125 and 0.75 whatever the query. *)
Definition index : ListIndex.t := {|
  ListIndex.store := [manual_a; manual_b0; manual_b1];
  ListIndex.distance := fun _ d =>
    if String.eqb (page_content d) "reset the panel" then 0.25%float
    else if String.eqb (page_content d) "camera setup" then 0.125%float
    else 0.75%float
|}.

Definition manager : VectorStoreManager :=
  {| vectorstore := Some (ListIndex.as_chroma index) |}.

Definition agent : RAGAgent :=
  {| vector_store := manager;
     llm := Some {| predict := fun _ => inr "  Step 1. Press reset.  " |} |}.



(** A file system with four paths: a readable manual, a scan without
    text, a damaged file that neither extractor reads, and a text file. *)
Definition processor : DocumentProcessor := {|
  path_exists := fun p => negb (String.eqb p "/d/missing.pdf");
  pdfplumber_pages := fun p =>
    if String.eqb p "/d/damaged.pdf" then ([Some "half a page"], Some (Exception "bad xref"))
    else if String.eqb p "/d/scan.pdf" then ([None; Some ""], None)
    else ([Some "Milestone camera guide"; None; Some "page two"], None);
  fitz_pages := fun _ => ([], Some (Exception "cannot open"));
  split_text := fun t => [t; "page two"]
|}.

(** A file system on which the first extractor fails after one page and
    the second one reads both pages. *)
Definition recovering_processor : DocumentProcessor := {|
  path_exists := fun _ => true;
  pdfplumber_pages := fun _ => ([Some "half a page"], Some (Exception "bad xref"));
  fitz_pages := fun _ => (["half a page"; "second page"], None);
  split_text := fun t => [t]
|}.

(** The records of the readable manual. *)
Definition manual_records : list Document :=
  build_documents "manual.pdf" "/d/manual.pdf" "milestone"
    [PyStr.strip ("Milestone camera guide" ++ nl ++ "page two" ++ nl); "page two"].

End Sample.

(** ** Product help: [RAGAgent.get_product_specific_help] *)

Definition help_text : gmap string string :=
  <["general" := "Ask about any general procedures or SOPs from your uploaded documents."]>
  (<["milestone" := "Ask about video surveillance procedures, camera configuration, or system management using Milestone."]>
  (<["inner_range" := "Ask about access control procedures, system setup, or security management using Inner Range systems."]>
  (<["everbridge" := "Ask about emergency notification procedures, system configuration, or incident management using Everbridge."]> ∅))).

Definition default_help : string :=
  "Ask about procedures related to your uploaded documents.".

(** [help_text.get(product_type, default)] *)
Definition get_product_specific_help (product_type : string) : string :=
  match help_text !! product_type with
  | Some text => text
  | None => default_help
  end.

(** ** Index management: the rest of [VectorStoreManager] *)

Global Instance value_countable : Countable value.
Proof.
  refine (inj_countable'
    (fun v => match v with
              | VNone => inl tt
              | VStr s => inr (inl s)
              | VInt n => inr (inr (inl n))
              | VBool b => inr (inr (inr b))
              end)
    (fun x => match x with
              | inl _ => VNone
              | inr (inl s) => VStr s
              | inr (inr (inl n)) => VInt n
              | inr (inr (inr b)) => VBool b
              end) _).
  intros []; reflexivity.
Defined.

(** The other methods and the [_collection] attribute of a Chroma object
    that the manager uses: [add_documents], [persist],
    [_collection.count()] and [_collection.get()].  The result of [get]
    is a dict of columns; the column "metadatas" holds one metadata dict,
    or [None], per stored record. *)
Record ChromaBackend := {
  chroma_add_documents : list Document -> exn + unit;
  chroma_persist : exn + unit;
  chroma_count : exn + Z;
  chroma_get : exn + gmap string (list (option (gmap string value)))
}.

(** [add_documents]; [backend vs] gives the methods above for the Chroma
    object [vs]. *)
Definition add_documents (backend : Chroma -> ChromaBackend)
    (vsm : VectorStoreManager) (documents : list Document) : M bool :=
  match vectorstore vsm with
  | None => print "Vectorstore not initialized" ;; ret false
  | Some vs =>
      try_catch
        (lift (chroma_add_documents (backend vs) documents) ;;
         lift (chroma_persist (backend vs)) ;;
         print ("Added " ++ PyStr.of_nat (length documents)
                ++ " documents to vectorstore") ;;
         ret true)
        (fun e => print ("Error adding documents: " ++ exn_str e) ;; ret false)
  end.

Definition get_document_count (backend : Chroma -> ChromaBackend)
    (vsm : VectorStoreManager) : M Z :=
  match vectorstore vsm with
  | None => ret 0%Z
  | Some vs =>
      try_catch
        (lift (chroma_count (backend vs)))
        (fun e => print ("Error getting document count: " ++ exn_str e) ;; ret 0%Z)
  end.






(** The two embedding objects the manager can hold. *)
Inductive embeddings :=
| OpenAIEmbeddings
| LocalEmbeddings.

(** What construction and clearing touch: the two embedding
    constructors, the file system and the constructor of Chroma. *)
Record StoreEnv := {
  openai_embeddings_new : exn + unit;
  local_embeddings_new : exn + unit;
  dir_exists : string -> bool;
  rmtree : string -> exn + unit;
  makedirs : string -> exn + unit;
  chroma_new : string -> embeddings -> exn + Chroma
}.

(** The attributes of a [VectorStoreManager] object. *)
Record ManagerState := {
  persist_directory : string;
  use_openai : bool;
  store_embeddings : embeddings;
  core : VectorStoreManager
}.

(** [_initialize_vectorstore]: the new value of [self.vectorstore]. *)
Definition initialize_vectorstore (env : StoreEnv) (directory : string)
    (emb : embeddings) : M VectorStoreManager :=
  lift (makedirs env directory) ;;
  try_catch
    (vs <- lift (chroma_new env directory emb) ;;
     ret {| vectorstore := Some vs |})
    (fun e =>
       print ("Error initializing vectorstore: " ++ exn_str e) ;;
       ret {| vectorstore := None |}).

(** [_get_local_embeddings] *)
Definition get_local_embeddings (env : StoreEnv) : M embeddings :=
  lift (local_embeddings_new env) ;; ret LocalEmbeddings.

(** [VectorStoreManager.__init__] *)
Definition new_manager (env : StoreEnv) (directory : string) (want_openai : bool)
    : M ManagerState :=
  chosen <-
    (if want_openai
     then
       try_catch
         (lift (openai_embeddings_new env) ;; ret (true, OpenAIEmbeddings))
         (fun e =>
            print ("OpenAI embeddings failed: " ++ exn_str e
                   ++ ", falling back to local model") ;;
            emb <- get_local_embeddings env ;;
            ret (false, emb))
     else
       emb <- get_local_embeddings env ;;
       ret (false, emb)) ;;
  vsm <- initialize_vectorstore env directory (snd chosen) ;;
  ret {| persist_directory := directory;
         use_openai := fst chosen;
         store_embeddings := snd chosen;
         core := vsm |}.

(** [clear_vectorstore]: the value returned and the object afterwards. *)
Definition clear_vectorstore (env : StoreEnv) (self : ManagerState)
    : M (bool * ManagerState) :=
  try_catch
    ((if dir_exists env (persist_directory self)
      then lift (rmtree env (persist_directory self))
      else ret tt) ;;
     vsm <- initialize_vectorstore env (persist_directory self)
              (store_embeddings self) ;;
     print "Vectorstore cleared successfully" ;;
     ret (true, {| persist_directory := persist_directory self;
                   use_openai := use_openai self;
                   store_embeddings := store_embeddings self;
                   core := vsm |}))
    (fun e =>
       print ("Error clearing vectorstore: " ++ exn_str e) ;;
       ret (false, self)).

(** ** More specification vocabulary *)


(** The text the first extractor contributes: every non-empty page text
    followed by a newline. *)
Definition plumber_text (pages : list (option string)) : string :=
  fold_left add_plumber_page pages "".

(** The text the second extractor contributes. *)
Definition fitz_text (pages : list string) : string :=
  fold_left add_fitz_page pages "".

(** The query is one that [validate_query] lets through. *)
Definition acceptable (query : string) : Prop :=
  3 <= String.length (PyStr.strip query) /\ String.length query <= 1000.

(** The filter [ask_question] hands to [generate_answer]. *)
Definition form_filter (product_filter : string) : option string :=
  if String.eqb product_filter "all" then None else Some product_filter.

(** The index a manager holds after a successful (re)initialisation:
    the one the Chroma constructor gave, or none if it raised. *)
Definition fresh_core (env : StoreEnv) (directory : string) (emb : embeddings)
    : VectorStoreManager :=
  {| vectorstore := match chroma_new env directory emb with
                    | inr vs => Some vs
                    | inl _ => None
                    end |}.

(** The list-backed index as the backend of its own Chroma object. *)
Definition list_backend (idx : ListIndex.t) : ChromaBackend := {|
  chroma_add_documents := fun _ => inr tt;
  chroma_persist := inr tt;
  chroma_count := inr (Z.of_nat (length (ListIndex.store idx)));
  chroma_get := inr {["metadatas" := map (fun d => Some (metadata d)) (ListIndex.store idx)]}
|}.

(** ** Sample environment *)

Module SampleStore.

(** An environment without OpenAI credentials whose Chroma constructor
    raises, and the manager that comes out of it. *)
Definition broken_env : StoreEnv := {|
  openai_embeddings_new := inl (Exception "no API key");
  local_embeddings_new := inr tt;
  dir_exists := fun _ => true;
  rmtree := fun _ => inr tt;
  makedirs := fun _ => inr tt;
  chroma_new := fun _ _ => inl (Exception "database is locked")
|}.

Definition state : ManagerState := {|
  persist_directory := "./data/vectorstore";
  use_openai := false;
  store_embeddings := LocalEmbeddings;
  core := {| vectorstore := None |}
|}.

End SampleStore.

(** * Properties *)

(** ** Strings *)

Lemma startswith_spec (p s : string) :
  PyStr.startswith p s = true <-> exists post, s = p ++ post.
Proof.
  revert s. induction p as [|a p IH]; intros s; simpl.
  - split; [intros _; exists s; reflexivity | reflexivity].
  - destruct s as [|b s].
    + split; [discriminate | intros [post H]; discriminate].
    + destruct (Ascii.eqb_spec a b) as [->|Hne].
      * rewrite IH. split; intros [post H]; exists post.
        -- now rewrite H.
        -- now injection H.
      * split; [discriminate | intros [post H]; injection H; congruence].
Qed.

Lemma contains_spec (kw s : string) :
  PyStr.contains kw s = true <-> exists pre post, s = pre ++ kw ++ post.
Proof.
  induction s as [|c s IH]; simpl.
  - rewrite orb_false_r, startswith_spec. split.
    + intros [post H]. exists "", post. exact H.
    + intros (pre & post & H). destruct pre; [exists post; exact H|discriminate].
  - rewrite orb_true_iff, startswith_spec, IH. split.
    + intros [[post H] | (pre & post & H)].
      * exists "", post. exact H.
      * exists (String c pre), post. simpl. now rewrite H.
    + intros (pre & post & H). destruct pre as [|c' pre].
      * left. exists post. exact H.
      * right. injection H as -> H. exists pre, post. exact H.
Qed.

Lemma lower_char_idem (c : ascii) :
  PyStr.lower_char (PyStr.lower_char c) = PyStr.lower_char c.
Proof. destruct c as [[] [] [] [] [] [] [] []]; reflexivity. Qed.

Lemma lower_idem (s : string) : PyStr.lower (PyStr.lower s) = PyStr.lower s.
Proof.
  induction s as [|c s IH]; simpl; [reflexivity|].
  now rewrite lower_char_idem, IH.
Qed.

Lemma lstrip_length (s : string) : String.length (PyStr.lstrip s) <= String.length s.
Proof.
  induction s as [|c s IH]; simpl; [lia|].
  destruct (PyStr.is_space c); simpl; lia.
Qed.

Lemma rstrip_length (s : string) : String.length (PyStr.rstrip s) <= String.length s.
Proof.
  induction s as [|c s IH]; simpl; [lia|].
  destruct (PyStr.rstrip s) as [|c' r]; simpl in *.
  - destruct (PyStr.is_space c); simpl; lia.
  - lia.
Qed.

Lemma strip_length (s : string) : String.length (PyStr.strip s) <= String.length s.
Proof.
  unfold PyStr.strip.
  pose proof (rstrip_length (PyStr.lstrip s)). pose proof (lstrip_length s). lia.
Qed.

(** ** Product classifier *)

Lemma contains_occurs_ci (kw s : string) :
  PyStr.contains kw (PyStr.lower s) = true <-> occurs_ci kw s.
Proof. apply contains_spec. Qed.

Lemma matches_any_sym (kws : list string) (t f : string) :
  matches_any kws t f = matches_any kws f t.
Proof.
  unfold matches_any. induction kws as [|kw kws IH]; simpl; [reflexivity|].
  now rewrite IH, (orb_comm (PyStr.contains kw (PyStr.lower t))).
Qed.

Lemma classify_uniform_sym (ke ki km : list string) (t f : string) :
  classify_uniform ke ki km t f = classify_uniform ke ki km f t.
Proof.
  unfold classify_uniform.
  now rewrite (matches_any_sym ke), (matches_any_sym ki), (matches_any_sym km).
Qed.

(** C4, as stated, fails: no keyword lists make the classifier a match
    of each category's keywords against both the text and the filename.
    The text "inner range" with an empty filename is classified
    inner_range, the filename "inner range" with an empty text general. *)
Lemma detect_product_type_not_uniform :
  ~ exists ke ki km : list string,
      forall text filename : string,
        detect_product_type text filename = classify_uniform ke ki km text filename.
Proof.
  intros (ke & ki & km & H).
  pose proof (H "inner range" "") as H1.
  pose proof (H "" "inner range") as H2.
  rewrite classify_uniform_sym in H2. rewrite <- H1 in H2.
  vm_compute in H2. discriminate.
Qed.

(** C4 (amended): the classifier returns one of the four categories,
    ignores letter case, and decides in priority order: "everbridge" in
    the text or the filename gives everbridge; otherwise "inner range" in
    the text, or "inner_range" or "innerrange" in the filename, gives
    inner_range; otherwise "milestone" in the text or the filename gives
    milestone; otherwise the result is general. *)
Theorem detect_product_type_priority (text filename : string) :
  let E := occurs_ci "everbridge" text \/ occurs_ci "everbridge" filename in
  let I := occurs_ci "inner range" text \/ occurs_ci "inner_range" filename
           \/ occurs_ci "innerrange" filename in
  let Ms := occurs_ci "milestone" text \/ occurs_ci "milestone" filename in
  In (detect_product_type text filename) supported_products /\
  detect_product_type (PyStr.lower text) (PyStr.lower filename)
    = detect_product_type text filename /\
  (detect_product_type text filename = "everbridge" <-> E) /\
  (detect_product_type text filename = "inner_range" <-> ~ E /\ I) /\
  (detect_product_type text filename = "milestone" <-> ~ E /\ ~ I /\ Ms) /\
  (detect_product_type text filename = "general" <-> ~ E /\ ~ I /\ ~ Ms).
Proof.
  intros E I Ms.
  assert (HE : PyStr.contains "everbridge" (PyStr.lower text)
               || PyStr.contains "everbridge" (PyStr.lower filename) = true <-> E).
  { unfold E. now rewrite orb_true_iff, !contains_occurs_ci. }
  assert (HI : PyStr.contains "inner range" (PyStr.lower text)
               || PyStr.contains "inner_range" (PyStr.lower filename)
               || PyStr.contains "innerrange" (PyStr.lower filename) = true <-> I).
  { unfold I. rewrite !orb_true_iff, !contains_occurs_ci. tauto. }
  assert (HS : PyStr.contains "milestone" (PyStr.lower text)
               || PyStr.contains "milestone" (PyStr.lower filename) = true <-> Ms).
  { unfold Ms. now rewrite orb_true_iff, !contains_occurs_ci. }
  split; [|split].
  - unfold detect_product_type, supported_products.
    repeat match goal with |- context [if ?b then _ else _] => destruct b end;
      simpl; tauto.
  - unfold detect_product_type. now rewrite !lower_idem.
  - unfold detect_product_type.
    destruct (_ || _) eqn:Eb in HE |- *.
    { repeat split; try discriminate; try tauto; intros; tauto. }
    destruct (_ || _ || _) eqn:Ib in HI |- *.
    { assert (~ E) by (rewrite <- HE; discriminate).
      repeat split; try discriminate; try tauto. }
    destruct (_ || _) eqn:Sb in HS |- *.
    { assert (~ E) by (rewrite <- HE; discriminate).
      assert (~ I) by (rewrite <- HI; discriminate).
      repeat split; try discriminate; try tauto. }
    assert (~ E) by (rewrite <- HE; discriminate).
    assert (~ I) by (rewrite <- HI; discriminate).
    assert (~ Ms) by (rewrite <- HS; discriminate).
    repeat split; try discriminate; try tauto.
Qed.

(** ** Floats *)

Lemma SFcompare_Lt_Gt (x y : SpecFloat.spec_float) :
  SpecFloat.SFcompare x y = Some Lt -> SpecFloat.SFcompare y x = Some Gt.
Proof.
  destruct x as [sx| sx | |sx mx ex], y as [sy|sy| |sy my ey]; simpl;
    try discriminate; try (destruct sx; discriminate);
    try (destruct sy; discriminate);
    try (destruct sx, sy; (discriminate || reflexivity)).
  destruct sx, sy; try discriminate; try reflexivity.
  - rewrite (Z.compare_antisym ex ey).
    destruct (ex ?= ey)%Z eqn:Hc; simpl; try discriminate; try reflexivity.
    change (Pos.compare_cont Eq my mx) with (my ?= mx)%positive.
    change (Pos.compare_cont Eq mx my) with (mx ?= my)%positive.
    rewrite (Pos.compare_antisym mx my).
    destruct (mx ?= my)%positive; simpl; (discriminate || reflexivity).
  - rewrite (Z.compare_antisym ex ey).
    destruct (ex ?= ey)%Z eqn:Hc; simpl; try discriminate; try reflexivity.
    change (Pos.compare_cont Eq my mx) with (my ?= mx)%positive.
    change (Pos.compare_cont Eq mx my) with (mx ?= my)%positive.
    rewrite (Pos.compare_antisym mx my).
    destruct (mx ?= my)%positive; simpl; (discriminate || reflexivity).
Qed.

(** A float at most [y] is not above [y]. *)
Lemma leb_not_ltb (x y : float) :
  PrimFloat.leb x y = true -> PrimFloat.ltb y x = false.
Proof.
  rewrite leb_spec, ltb_spec. unfold SpecFloat.SFleb, SpecFloat.SFltb.
  destruct (SpecFloat.SFcompare (Prim2SF y) (Prim2SF x)) as [[]|] eqn:Hyx;
    try reflexivity.
  apply SFcompare_Lt_Gt in Hyx. rewrite Hyx. discriminate.
Qed.

(** ** Retrieval *)

Lemma fold_keep_if_close (thr : float) (results : list (Document * float))
    (acc : list Document) :
  fold_left (keep_if_close thr) results acc
  = (acc ++ map fst (List.filter (fun r => PrimFloat.leb (snd r) thr) results))%list.
Proof.
  revert acc. induction results as [|[doc score] results IH]; intros acc; simpl.
  - now rewrite app_nil_r.
  - rewrite IH. destruct (PrimFloat.leb score thr); simpl; [|reflexivity].
    now rewrite <- app_assoc.
Qed.

Lemma filter_dict_truthy (product_filter : option string) :
  dict_truthy (make_filter_dict product_filter) = filter_requested product_filter.
Proof.
  unfold dict_truthy, make_filter_dict.
  destruct product_filter as [pf|]; [|reflexivity].
  destruct (filter_requested (Some pf)); [|reflexivity].
  now rewrite insert_empty, map_size_singleton.
Qed.

Lemma search_filter_requested (product_filter : option string) :
  search_filter product_filter
  = if filter_requested product_filter
    then Some (make_filter_dict product_filter) else None.
Proof.
  unfold search_filter, make_filter_dict, filter_requested.
  destruct product_filter as [pf|]; [|reflexivity].
  destruct (PyStr.truthy pf && negb (String.eqb pf "all")); [|reflexivity].
  now rewrite insert_empty.
Qed.

(** What a call of [search_documents] comes to, case by case. *)
Lemma search_documents_cases (vsm : VectorStoreManager) (query : string) (k : Z)
    (product_filter : option string) (thr : float) :
  search_documents vsm query k product_filter thr =
  match vectorstore vsm with
  | None => ([EvPrint "Vectorstore not initialized"], inr [])
  | Some vs =>
      match similarity_search_with_score vs query k (search_filter product_filter) with
      | inr results =>
          ([EvSearch query k (search_filter product_filter)],
           inr (map fst (List.filter (fun r => PrimFloat.leb (snd r) thr) results)))
      | inl e =>
          ([EvSearch query k (search_filter product_filter);
            EvPrint ("Error searching documents: " ++ exn_str e)], inr [])
      end
  end.
Proof.
  unfold search_documents. destruct (vectorstore vsm) as [vs|]; [|reflexivity].
  rewrite filter_dict_truthy, search_filter_requested.
  destruct (filter_requested product_filter);
    unfold call_similarity_search, try_catch, bind, emit, lift, ret, print; simpl;
    match goal with |- context [similarity_search_with_score ?a ?b ?c ?d] =>
      destruct (similarity_search_with_score a b c d) as [e|results] end;
    simpl; try reflexivity; now rewrite fold_keep_if_close.
Qed.

Lemma list_filter_sublist {A} (p : A -> bool) (l : list A) :
  sublist (List.filter p l) l.
Proof.
  induction l as [|x l IH]; simpl; [constructor|].
  destruct (p x); now constructor.
Qed.

Lemma StronglySorted_sublist {A} (R : A -> A -> Prop) (l1 l2 : list A) :
  sublist l1 l2 -> StronglySorted R l2 -> StronglySorted R l1.
Proof.
  induction 1 as [|x l1 l2 Hs IH|x l1 l2 Hs IH]; intros Hsorted.
  - constructor.
  - apply StronglySorted_inv in Hsorted as [Hl2 Hx]. constructor; [auto|].
    rewrite List.Forall_forall in *. intros y Hy. apply Hx.
    apply list_elem_of_In. eapply elem_of_sublist; [|exact Hs]. now apply list_elem_of_In.
  - apply StronglySorted_inv in Hsorted as [Hl2 _]. auto.
Qed.

(** C1: whatever the query, [k], product filter and threshold,
    [search_documents] returns the documents of a sub-sequence [kept] of
    the index results, in the order of the index; every kept result has a
    distance at most the threshold, none has a distance above it, and
    nothing within the threshold is lost.  An ascending order of the index
    results carries over to [kept]. *)
Theorem search_documents_threshold (vsm : VectorStoreManager) (query : string)
    (k : Z) (product_filter : option string) (score_threshold : float) :
  exists kept : list (Document * float),
    outcome (search_documents vsm query k product_filter score_threshold)
      = inr (map fst kept) /\
    sublist kept (index_results vsm query k product_filter) /\
    Forall (within score_threshold) kept /\
    Forall (fun r => ~ exceeds score_threshold r) kept /\
    (forall r, In r (index_results vsm query k product_filter) ->
               within score_threshold r -> In r kept) /\
    (StronglySorted (fun a b => PrimFloat.leb (snd a) (snd b) = true)
       (index_results vsm query k product_filter) ->
     StronglySorted (fun a b => PrimFloat.leb (snd a) (snd b) = true) kept).
Proof.
  exists (List.filter (fun r => PrimFloat.leb (snd r) score_threshold)
            (index_results vsm query k product_filter)).
  assert (Hsub := list_filter_sublist
            (fun r : Document * float => PrimFloat.leb (snd r) score_threshold)
            (index_results vsm query k product_filter)).
  repeat split.
  - rewrite search_documents_cases. unfold index_results, outcome.
    destruct (vectorstore vsm) as [vs|]; [|reflexivity].
    now destruct (similarity_search_with_score vs query k (search_filter product_filter)).
  - exact Hsub.
  - apply List.Forall_forall. intros r Hr. apply filter_In in Hr. apply Hr.
  - apply List.Forall_forall. intros r Hr. apply filter_In in Hr as [_ Hr].
    unfold exceeds. now rewrite (leb_not_ltb _ _ Hr).
  - intros r Hin Hr. apply filter_In. split; assumption.
  - now apply StronglySorted_sublist.
Qed.

(** C2: a category filter [X] that is neither empty nor "all" is passed
    to the index search as the filter on [product_type], so that, the
    index honouring it, every returned document is tagged [X]; a filter
    that is absent, empty or "all" leads to the same call as no filter,
    and that call names no filter. *)
Theorem search_documents_category (vsm : VectorStoreManager) (query : string)
    (k : Z) (X : string) (score_threshold : float)
    (Hindex : honours_filter vsm query k X) :
  (X <> "" -> X <> "all" ->
   (exists docs,
      outcome (search_documents vsm query k (Some X) score_threshold) = inr docs /\
      Forall (has_category X) docs) /\
   Forall (fun ev => is_search ev = true ->
                     ev = EvSearch query k (Some {["product_type" := VStr X]}))
          (trace (search_documents vsm query k (Some X) score_threshold))) /\
  (forall product_filter,
     product_filter = None \/ product_filter = Some "" \/ product_filter = Some "all" ->
     search_documents vsm query k product_filter score_threshold
       = search_documents vsm query k None score_threshold /\
     Forall (fun ev => is_search ev = true -> ev = EvSearch query k None)
            (trace (search_documents vsm query k product_filter score_threshold))).
Proof.
  split.
  - intros Hne Hall.
    assert (Hf : search_filter (Some X) = Some {["product_type" := VStr X]}).
    { unfold search_filter.
      destruct (String.eqb_spec X "all"); [congruence|].
      destruct X; [congruence|reflexivity]. }
    rewrite search_documents_cases, Hf. unfold outcome, trace.
    destruct (vectorstore vsm) as [vs|] eqn:Hvs; simpl.
    + destruct (similarity_search_with_score vs query k _) as [e|results] eqn:Hcall; simpl.
      * split; [exists []; split; [reflexivity|constructor]|].
        repeat constructor; discriminate.
      * split; [|repeat constructor].
        eexists; split; [reflexivity|].
        specialize (Hindex vs results Hvs Hcall).
        apply List.Forall_forall. intros d Hd. apply in_map_iff in Hd as (r & <- & Hr).
        apply filter_In in Hr as [Hr _].
        rewrite List.Forall_forall in Hindex. now apply Hindex.
    + split; [exists []; split; [reflexivity|constructor]|].
      repeat constructor; discriminate.
  - intros pf Hpf.
    assert (Hf : search_filter pf = None) by (destruct Hpf as [->|[->| ->]]; reflexivity).
    rewrite !search_documents_cases, Hf. split; [reflexivity|]. unfold trace.
    destruct (vectorstore vsm) as [vs|]; simpl.
    + destruct (similarity_search_with_score vs query k None); simpl;
        repeat constructor; discriminate.
    + repeat constructor; discriminate.
Qed.

(** The list-backed index honours every category filter. *)
Lemma list_index_honours (idx : ListIndex.t) (query : string) (k : Z) (X : string) :
  honours_filter {| vectorstore := Some (ListIndex.as_chroma idx) |} query k X.
Proof.
  intros vs results Hvs Hcall. injection Hvs as <-. injection Hcall as <-.
  unfold ListIndex.search.
  assert (Hins : forall x l, Forall (fun r => has_category X (fst r)) (x :: l) ->
                 Forall (fun r => has_category X (fst r)) (ListIndex.insert_scored x l)).
  { intros x l. induction l as [|y l IH]; intros H; simpl; [exact H|].
    destruct (PrimFloat.leb (snd x) (snd y)); [exact H|].
    inversion H as [|? ? Hx Hyl]; subst. inversion Hyl as [|? ? Hy Hl]; subst.
    constructor; [exact Hy|]. apply IH. now constructor. }
  apply Forall_take.
  induction (ListIndex.store idx) as [|d l IH]; [constructor|].
  cbn [List.filter].
  destruct (ListIndex.agrees (Some {["product_type" := VStr X]}) d) eqn:Hd;
    [|exact IH].
  cbn [map ListIndex.sort_scored fold_right].
  apply Hins. constructor; [|exact IH]. cbn [fst].
  unfold ListIndex.agrees in Hd. apply bool_decide_eq_true in Hd.
  apply map_Forall_singleton in Hd. exact Hd.
Qed.

(** The sample index returns only milestone chunks for the milestone
    filter, and [search_documents] hands on the one within 0.5. *)
Lemma search_documents_category_witness :
  exists docs,
    outcome (search_documents Sample.manager "camera" 5 (Some "milestone") 0.5) = inr docs /\
    Forall (has_category "milestone") docs.
Proof.
  refine (proj1 (proj1 (search_documents_category
                          Sample.manager "camera" 5 "milestone" 0.5 _) _ _)).
  - apply list_index_honours.
  - discriminate.
  - discriminate.
Defined.

(** ** Answer synthesis *)

(** [search_documents] always returns a list, and never asks the model. *)
Lemma search_documents_returns (vsm : VectorStoreManager) (query : string) (k : Z)
    (product_filter : option string) (thr : float) :
  exists t docs,
    search_documents vsm query k product_filter thr = (t, inr docs) /\
    forall prompt, ~ In (EvPredict prompt) t.
Proof.
  rewrite search_documents_cases.
  destruct (vectorstore vsm) as [vs|].
  - destruct (similarity_search_with_score vs query k (search_filter product_filter));
      eexists _, _; (split; [reflexivity|]); intros prompt [H|H];
      try discriminate; try destruct H as [H|H]; try discriminate; try contradiction.
  - eexists _, _; split; [reflexivity|]. intros prompt [H|[]]. discriminate.
Qed.

Lemma fold_sources (docs : list Document) (acc : list (gmap string value)) :
  fold_left (fun sources doc => (sources ++ [source_of doc])%list) docs acc
  = (acc ++ map source_of docs)%list.
Proof.
  revert acc. induction docs as [|d docs IH]; intros acc; simpl.
  - now rewrite app_nil_r.
  - now rewrite IH, <- app_assoc.
Qed.

Lemma generate_answer_path (agent : RAGAgent) (query : string)
    (product_filter : option string) (k : Z) :
  answer_path agent query product_filter k
    (generate_answer agent query product_filter k).
Proof.
  unfold generate_answer.
  destruct (llm agent) as [model|] eqn:Hllm; [|now constructor].
  destruct (search_documents_returns (vector_store agent) query k product_filter
              default_score_threshold) as (t & docs & Hs & _).
  assert (Hr : retrieve_relevant_documents agent query product_filter k = (t, inr docs))
    by exact Hs.
  rewrite Hr. unfold bind at 1.
  destruct docs as [|d docs].
  - unfold ret. rewrite app_nil_r. eapply path_no_documents; eassumption.
  - unfold call_predict, try_catch, bind, emit, lift, ret.
    destruct (predict model (format_prompt (format_context (d :: docs)) query))
      as [e|response] eqn:Hp; cbn [fst snd].
    + rewrite !app_nil_r.
      eapply path_model_raises; try eassumption. discriminate.
    + rewrite fold_sources, !app_nil_r. cbn [app].
      eapply (path_success _ _ _ _ model t (d :: docs) response); try eassumption.
      discriminate.
Qed.


Lemma success_response_keys (docs : list Document) (response : string)
    (product_filter : option string) :
  success_response docs response product_filter !! "answer"
    = Some (RVal (VStr (PyStr.strip response))) /\
  success_response docs response product_filter !! "sources"
    = Some (RSources (map source_of docs)) /\
  success_response docs response product_filter !! "product_filter"
    = Some (RVal (of_optional product_filter)) /\
  success_response docs response product_filter !! "num_sources"
    = Some (RVal (VInt (Z.of_nat (length (map source_of docs))))).
Proof. rewrite length_map. repeat split; reflexivity. Qed.







(** ** Query validation *)

(** C3, as stated, fails: [generate_answer] does not validate its query.
    For the two-character query "ab" the sample agent searches the index,
    asks the model and returns its completion. *)
Lemma generate_answer_short_query_runs :
  String.length "ab" < 3 /\
  existsb is_search (trace (generate_answer Sample.agent "ab" None 5)) = true /\
  existsb is_predict (trace (generate_answer Sample.agent "ab" None 5)) = true /\
  response_field (generate_answer Sample.agent "ab" None 5) "answer"
    = Some (RVal (VStr "Step 1. Press reset.")) /\
  response_field (generate_answer Sample.agent "ab" None 5) "num_sources"
    = Some (RVal (VInt 2)).
Proof.
  split; [simpl; lia|].
  repeat split; vm_compute; reflexivity.
Qed.

(** C3 (amended): a query shorter than 3 or longer than 1000 characters
    is rejected by [validate_query] with a message, and [ask_question],
    which validates first, shows that message and returns without calling
    [generate_answer]: no retrieval, no model call, session unchanged. *)
Theorem validate_query_gate (query : string)
    (Hlen : String.length query < 3 \/ 1000 < String.length query) :
  exists message,
    validate_query query = validation_result false message /\
    forall (st : session_state) (product_filter : string) (agent : RAGAgent),
      ask_question st query product_filter agent = ([EvStError message], inr st).
Proof.
  assert (Hv : exists message, validate_query query = validation_result false message).
  { unfold validate_query.
    destruct (negb (PyStr.truthy query) || (String.length (PyStr.strip query) <? 3))
      eqn:Hshort; [eexists; reflexivity|].
    destruct (1000 <? String.length query) eqn:Hlong; [eexists; reflexivity|].
    exfalso. apply orb_false_iff in Hshort as [_ Hshort].
    apply Nat.ltb_ge in Hshort, Hlong.
    pose proof (strip_length query). lia. }
  destruct Hv as [message Hv]. exists message. split; [exact Hv|].
  intros st product_filter agent. unfold ask_question. rewrite Hv. reflexivity.
Qed.

(** The two-character query "ab" is rejected, and the form shows the
    message without searching or asking the model. *)
Lemma validate_query_gate_witness :
  exists message,
    validate_query "ab" = validation_result false message /\
    forall (st : session_state) (product_filter : string) (agent : RAGAgent),
      ask_question st "ab" product_filter agent = ([EvStError message], inr st).
Proof.
  apply (validate_query_gate "ab"). left. simpl. lia.
Defined.

(** ** Ingestion *)

Lemma extract_text_both_fail (dp : DocumentProcessor) (file_path : string)
    pages e pages2 e2 :
  pdfplumber_pages dp file_path = (pages, Some e) ->
  fitz_pages dp file_path = (pages2, Some e2) ->
  outcome (extract_text_from_pdf dp file_path)
  = inl (Exception ("Could not extract text from PDF: " ++ exn_str e2)).
Proof.
  intros H1 H2. unfold extract_text_from_pdf, outcome, bind, emit, print.
  rewrite H1. cbn. rewrite H2. reflexivity.
Qed.

(** C5: [process_document] raises [FileNotFoundError] for a path that
    does not exist, [ValueError] ("only PDF files are supported") for an
    existing path that does not end in ".pdf", [Exception] ("Could not
    extract text") when both extractors fail, and [ValueError] ("No text
    could be extracted") when the extracted text is empty.  Each outcome
    is an exception, so no chunk record is produced. *)
Theorem process_document_failures (dp : DocumentProcessor) (file_path : string)
    (product_type : option string) :
  (path_exists dp file_path = false ->
   process_document dp file_path product_type
   = ([], inl (FileNotFoundError ("File not found: " ++ file_path)))) /\
  (path_exists dp file_path = true ->
   PyStr.endswith ".pdf" (PyStr.lower file_path) = false ->
   process_document dp file_path product_type
   = ([], inl (ValueError "Currently only PDF files are supported"))) /\
  (path_exists dp file_path = true ->
   PyStr.endswith ".pdf" (PyStr.lower file_path) = true ->
   forall pages e pages2 e2,
     pdfplumber_pages dp file_path = (pages, Some e) ->
     fitz_pages dp file_path = (pages2, Some e2) ->
     outcome (process_document dp file_path product_type)
     = inl (Exception ("Could not extract text from PDF: " ++ exn_str e2))) /\
  (path_exists dp file_path = true ->
   PyStr.endswith ".pdf" (PyStr.lower file_path) = true ->
   outcome (extract_text_from_pdf dp file_path) = inr "" ->
   outcome (process_document dp file_path product_type)
   = inl (ValueError "No text could be extracted from the PDF")).
Proof.
  unfold process_document. repeat split.
  - intros ->. reflexivity.
  - intros -> ->. reflexivity.
  - intros -> -> pages e pages2 e2 H1 H2. cbn [negb].
    pose proof (extract_text_both_fail dp file_path _ _ _ _ H1 H2) as He.
    unfold outcome in *.
    destruct (extract_text_from_pdf dp file_path) as [t r]. cbn in He. subst r.
    reflexivity.
  - intros -> -> He. cbn [negb]. unfold outcome in *.
    destruct (extract_text_from_pdf dp file_path) as [t r]. cbn in He. subst r.
    reflexivity.
Qed.

(** On the sample file system: a missing path, a text file, a damaged
    file that neither extractor reads and a scan without text. *)
Lemma process_document_failures_witness :
  process_document Sample.processor "/d/missing.pdf" None
  = ([], inl (FileNotFoundError "File not found: /d/missing.pdf")) /\
  process_document Sample.processor "/d/notes.txt" None
  = ([], inl (ValueError "Currently only PDF files are supported")) /\
  outcome (process_document Sample.processor "/d/damaged.pdf" None)
  = inl (Exception "Could not extract text from PDF: cannot open") /\
  outcome (process_document Sample.processor "/d/scan.pdf" None)
  = inl (ValueError "No text could be extracted from the PDF").
Proof.
  split; [|split; [|split]].
  - apply (process_document_failures Sample.processor "/d/missing.pdf" None).
    reflexivity.
  - apply (process_document_failures Sample.processor "/d/notes.txt" None);
      reflexivity.
  - apply (proj1 (proj2 (proj2 (process_document_failures
             Sample.processor "/d/damaged.pdf" None)))
             eq_refl eq_refl [Some "half a page"] (Exception "bad xref")
             [] (Exception "cannot open")); reflexivity.
  - apply (process_document_failures Sample.processor "/d/scan.pdf" None);
      reflexivity.
Defined.

Lemma enumerate_fst {A} (start : nat) (l : list A) :
  map fst (enumerate start l) = seq start (length l).
Proof.
  revert start. induction l as [|x l IH]; intros start; simpl; [reflexivity|].
  now rewrite IH.
Qed.

Lemma fold_build_documents (filename file_path product_type : string)
    (total : nat) (l : list (nat * string)) (acc : list Document) :
  fold_left
    (fun documents '(i, chunk) =>
       (documents ++
        [mkDocument chunk
           (chunk_metadata filename file_path product_type i total)])%list)
    l acc
  = (acc ++ map (fun ic => mkDocument (snd ic)
                   (chunk_metadata filename file_path product_type (fst ic) total))
                l)%list.
Proof.
  revert acc. induction l as [|[i c] l IH]; intros acc; simpl.
  - now rewrite app_nil_r.
  - rewrite IH. now rewrite <- app_assoc.
Qed.

Lemma build_documents_map (filename file_path product_type : string)
    (chunks : list string) :
  build_documents filename file_path product_type chunks
  = map (fun ic => mkDocument (snd ic)
                     (chunk_metadata filename file_path product_type (fst ic)
                        (length chunks)))
        (enumerate 0 chunks).
Proof. unfold build_documents. now rewrite fold_build_documents. Qed.

Lemma build_documents_length (filename file_path product_type : string)
    (chunks : list string) :
  length (build_documents filename file_path product_type chunks) = length chunks.
Proof.
  rewrite build_documents_map, length_map.
  rewrite <- (length_map fst), enumerate_fst. apply length_seq.
Qed.

(** A successful [process_document] returns the records built from the
    chunks of the extracted text. *)
Lemma process_document_success (dp : DocumentProcessor) (file_path : string)
    (product_type : option string) (docs : list Document) :
  outcome (process_document dp file_path product_type) = inr docs ->
  exists text,
    outcome (extract_text_from_pdf dp file_path) = inr text /\
    docs = build_documents (PyStr.basename file_path) file_path
             (match product_type with
              | None => detect_product_type text (PyStr.basename file_path)
              | Some p => p
              end)
             (split_text dp text).
Proof.
  unfold process_document, outcome.
  destruct (path_exists dp file_path); [|discriminate].
  destruct (PyStr.endswith ".pdf" (PyStr.lower file_path)); [|discriminate].
  cbn [negb].
  destruct (extract_text_from_pdf dp file_path) as [t [e|text]]; [discriminate|].
  cbn [bind snd].
  destruct (PyStr.truthy (PyStr.strip text)); [|discriminate].
  cbn. intros H. injection H as <-. exists text. split; reflexivity.
Qed.

(** C6: the records of a successfully ingested document are numbered
    0, 1, 2, ... by [chunk_index], each holds the number of records as
    [total_chunks], and all hold the same source filename and the same
    product category: the category given, or else the detected one. *)
Theorem process_document_chunk_records (dp : DocumentProcessor) (file_path : string)
    (product_type : option string) (docs : list Document)
    (Hok : outcome (process_document dp file_path product_type) = inr docs) :
  map (fun d => metadata d !! "chunk_index") docs
  = map (fun i => Some (VInt (Z.of_nat i))) (seq 0 (length docs)) /\
  Forall (fun d => metadata d !! "total_chunks"
                   = Some (VInt (Z.of_nat (length docs)))) docs /\
  exists category,
    Forall (fun d => metadata d !! "source" = Some (VStr (PyStr.basename file_path))
                     /\ has_category category d) docs /\
    (forall p, product_type = Some p -> category = p) /\
    (product_type = None ->
     exists text,
       outcome (extract_text_from_pdf dp file_path) = inr text /\
       category = detect_product_type text (PyStr.basename file_path)).
Proof.
  apply process_document_success in Hok as (text & Htext & ->).
  rewrite build_documents_length.
  set (category := match product_type with
                   | None => detect_product_type text (PyStr.basename file_path)
                   | Some p => p
                   end).
  rewrite build_documents_map.
  split; [|split].
  - rewrite <- (enumerate_fst 0 (split_text dp text)), !map_map.
    apply map_ext. intros [i c]. reflexivity.
  - apply List.Forall_forall. intros d Hd. apply in_map_iff in Hd as ([i c] & <- & _).
    reflexivity.
  - exists category. split; [|split].
    + apply List.Forall_forall. intros d Hd.
      apply in_map_iff in Hd as ([i c] & <- & _). split; reflexivity.
    + intros p ->. reflexivity.
    + intros ->. exists text. split; [exact Htext|reflexivity].
Qed.

(** The readable sample manual yields two records, numbered 0 and 1,
    each holding 2 as the total. *)
Lemma process_document_chunk_records_witness :
  outcome (process_document Sample.processor "/d/manual.pdf" None)
    = inr Sample.manual_records /\
  map (fun d => metadata d !! "chunk_index") Sample.manual_records
    = [Some (VInt 0); Some (VInt 1)] /\
  Forall (fun d => metadata d !! "total_chunks" = Some (VInt 2)) Sample.manual_records.
Proof.
  assert (H : outcome (process_document Sample.processor "/d/manual.pdf" None)
              = inr Sample.manual_records) by reflexivity.
  split; [exact H|].
  destruct (process_document_chunk_records _ _ _ _ H) as (H1 & H2 & _).
  split; [exact H1|exact H2].
Defined.

(** The loop appends to its accumulator the records of each document
    that succeeds, and prints one error line for each that fails. *)
Lemma process_loop_spec (dp : DocumentProcessor) (file_paths : list string)
    (product_types : option (gmap string string)) (acc : list Document) :
  exists t,
    process_loop dp file_paths product_types acc
    = (t, inr (acc ++ concat (map (chunks_or_none dp product_types) file_paths))%list) /\
    forall file_path e,
      In file_path file_paths ->
      outcome (process_document dp file_path
                 (lookup_product_type product_types file_path)) = inl e ->
      In (EvPrint ("Error processing " ++ file_path ++ ": " ++ exn_str e)) t.
Proof.
  revert acc. induction file_paths as [|p rest IH]; intros acc.
  - exists []. split; [simpl; now rewrite app_nil_r|]. intros ? ? [].
  - cbn [process_loop map concat]. unfold chunks_or_none at 1, outcome.
    destruct (process_document dp p (lookup_product_type product_types p))
      as [t0 [e0|ds]] eqn:Hpd.
    + destruct (IH acc) as (t & Hloop & Hlog).
      unfold try_catch, bind at 2, print, emit, ret. cbn [bind snd fst].
      unfold bind. rewrite Hloop. eexists. split; [reflexivity|].
      intros fp e [<-|Hin] He.
      * rewrite Hpd in He. cbn in He. injection He as <-.
        apply in_or_app. left. apply in_or_app. right.
        apply in_or_app. left. now left.
      * apply in_or_app. right. eapply Hlog; eassumption.
    + destruct (IH (acc ++ ds)%list) as (t & Hloop & Hlog).
      unfold try_catch, bind at 2, bind at 2, print, emit, ret. cbn [bind snd fst].
      unfold bind. rewrite Hloop. eexists. split; [now rewrite <- (app_assoc acc ds)|].
      intros fp e [<-|Hin] He.
      * rewrite Hpd in He. discriminate.
      * apply in_or_app. right. eapply Hlog; eassumption.
Qed.

(** C7: [process_multiple_documents] always returns, and what it returns
    is the concatenation, in input order, of the chunk records of the
    documents that succeed; a document that fails contributes nothing and
    leaves an "Error processing" line in the output. *)
Theorem process_multiple_documents_concat (dp : DocumentProcessor)
    (file_paths : list string) (product_types : option (gmap string string)) :
  outcome (process_multiple_documents dp file_paths product_types)
  = inr (concat (map (chunks_or_none dp product_types) file_paths)) /\
  (forall file_path e,
     In file_path file_paths ->
     outcome (process_document dp file_path
                (lookup_product_type product_types file_path)) = inl e ->
     chunks_or_none dp product_types file_path = [] /\
     In (EvPrint ("Error processing " ++ file_path ++ ": " ++ exn_str e))
        (trace (process_multiple_documents dp file_paths product_types))).
Proof.
  unfold process_multiple_documents.
  destruct (process_loop_spec dp file_paths product_types []) as (t & Hloop & Hlog).
  rewrite Hloop. split; [reflexivity|].
  intros file_path e Hin He. split.
  - unfold chunks_or_none. now rewrite He.
  - now apply Hlog.
Qed.

(** A batch of the sample file system: the missing path, the readable
    manual and the text file.  Only the manual contributes records. *)
Lemma process_multiple_documents_concat_witness :
  outcome (process_multiple_documents Sample.processor
             ["/d/missing.pdf"; "/d/manual.pdf"; "/d/notes.txt"] None)
  = inr Sample.manual_records /\
  In (EvPrint "Error processing /d/notes.txt: Currently only PDF files are supported")
     (trace (process_multiple_documents Sample.processor
               ["/d/missing.pdf"; "/d/manual.pdf"; "/d/notes.txt"] None)).
Proof.
  split.
  - etransitivity;
      [exact (proj1 (process_multiple_documents_concat Sample.processor
                       ["/d/missing.pdf"; "/d/manual.pdf"; "/d/notes.txt"] None))|].
    vm_compute. reflexivity.
  - refine (proj2 (proj2 (process_multiple_documents_concat Sample.processor
             ["/d/missing.pdf"; "/d/manual.pdf"; "/d/notes.txt"] None)
             "/d/notes.txt" (ValueError "Currently only PDF files are supported")
             _ _)).
    + simpl. tauto.
    + reflexivity.
Defined.

(** * Further properties *)

(** ** String helpers *)

Lemma string_app_cons (c : ascii) (s t : string) :
  String c s ++ t = String c (s ++ t).
Proof. reflexivity. Qed.

Lemma string_app_assoc (s t u : string) : (s ++ t) ++ u = s ++ (t ++ u).
Proof.
  induction s as [|c s IH]; [reflexivity|].
  now rewrite !string_app_cons, IH.
Qed.

Lemma string_app_nil_r (s : string) : s ++ "" = s.
Proof.
  induction s as [|c s IH]; [reflexivity|].
  now rewrite string_app_cons, IH.
Qed.

Lemma rstrip_idem (s : string) : PyStr.rstrip (PyStr.rstrip s) = PyStr.rstrip s.
Proof.
  induction s as [|c s IH]; [reflexivity|].
  cbn [PyStr.rstrip].
  destruct (PyStr.rstrip s) as [|c' r] eqn:Hr.
  - destruct (PyStr.is_space c) eqn:Hc; [reflexivity|].
    cbn [PyStr.rstrip]. now rewrite Hc.
  - cbn [PyStr.rstrip] in *. now rewrite IH.
Qed.

Lemma lstrip_head (s : string) :
  match PyStr.lstrip s with
  | EmptyString => True
  | String c _ => PyStr.is_space c = false
  end.
Proof.
  induction s as [|c s IH]; [exact I|].
  cbn [PyStr.lstrip]. destruct (PyStr.is_space c) eqn:Hc; [exact IH|exact Hc].
Qed.

Lemma lstrip_rstrip_head (c : ascii) (s : string) :
  PyStr.is_space c = false ->
  PyStr.lstrip (PyStr.rstrip (String c s)) = PyStr.rstrip (String c s).
Proof.
  intros Hc. cbn [PyStr.rstrip].
  destruct (PyStr.rstrip s); rewrite ?Hc; cbn [PyStr.lstrip]; now rewrite Hc.
Qed.

Lemma strip_idem (s : string) : PyStr.strip (PyStr.strip s) = PyStr.strip s.
Proof.
  unfold PyStr.strip. pose proof (lstrip_head s) as Hh.
  destruct (PyStr.lstrip s) as [|c x]; [reflexivity|].
  rewrite (lstrip_rstrip_head c x Hh). apply rstrip_idem.
Qed.

Lemma fold_add_fitz_page (pages : list string) (text : string) :
  fold_left add_fitz_page pages text = text ++ fitz_text pages.
Proof.
  unfold fitz_text. revert text.
  induction pages as [|p pages IH]; intros text; cbn [fold_left].
  - now rewrite string_app_nil_r.
  - rewrite IH, (IH (add_fitz_page "" p)). unfold add_fitz_page.
    now rewrite string_app_assoc.
Qed.

(** ** Query validation, both ways *)

(** X1: [validate_query] accepts a query exactly when it has at least 3
    characters after stripping and at most 1000 before.  A query that is
    too short after stripping gets the "more specific" message whatever
    its length; only a query long enough after stripping can get the
    "too long" one. *)
Theorem validate_query_accepts (query : string) :
  (validate_query query !! "valid" = Some (VBool true) <-> acceptable query) /\
  (acceptable query ->
   validate_query query = validation_result true "Query is valid.") /\
  (String.length (PyStr.strip query) < 3 ->
   validate_query query
   = validation_result false
       "Please enter a more specific question (at least 3 characters).") /\
  (3 <= String.length (PyStr.strip query) -> 1000 < String.length query ->
   validate_query query
   = validation_result false
       "Question is too long. Please keep it under 1000 characters.").
Proof.
  unfold validate_query, acceptable.
  assert (Hor : negb (PyStr.truthy query)
                || (String.length (PyStr.strip query) <? 3) = true
                <-> String.length (PyStr.strip query) < 3).
  { rewrite orb_true_iff, Nat.ltb_lt. split; [|auto].
    intros [H|H]; [|exact H]. destruct query; [cbn; lia|discriminate]. }
  destruct (negb (PyStr.truthy query)
            || (String.length (PyStr.strip query) <? 3)) eqn:Hshort.
  - assert (Hlt : String.length (PyStr.strip query) < 3) by (now apply Hor).
    split; [split; [intros H; discriminate H|intros [? ?]; lia]|].
    split; [intros [? ?]; lia|].
    split; [reflexivity|intros; lia].
  - assert (Hge : 3 <= String.length (PyStr.strip query)).
    { destruct (Nat.lt_ge_cases (String.length (PyStr.strip query)) 3) as [H|H];
        [apply Hor in H; discriminate|exact H]. }
    destruct (Nat.ltb_spec 1000 (String.length query)) as [Hl|Hl].
    + split; [split; [intros H; discriminate H|intros [? ?]; lia]|].
      split; [intros [? ?]; lia|].
      split; [intros; lia|reflexivity].
    + split; [split; [intros _; lia|reflexivity]|].
      split; [reflexivity|].
      split; intros; lia.
Qed.

(** A question of 26 characters is accepted; three spaces are not. *)
Lemma validate_query_accepts_witness :
  validate_query "How do I reset the panel?"
    = validation_result true "Query is valid." /\
  validate_query "   "
    = validation_result false
        "Please enter a more specific question (at least 3 characters).".
Proof.
  split.
  - refine (proj1 (proj2 (validate_query_accepts "How do I reset the panel?")) _).
    unfold acceptable. vm_compute. lia.
  - refine (proj1 (proj2 (proj2 (validate_query_accepts "   "))) _).
    vm_compute. lia.
Defined.

(** ** Text extraction *)

(** X2: the text [extract_text_from_pdf] returns has no leading or
    trailing whitespace: stripping it again changes nothing. *)
Theorem extract_text_stripped (dp : DocumentProcessor) (file_path text : string)
    (Hok : outcome (extract_text_from_pdf dp file_path) = inr text) :
  PyStr.strip text = text.
Proof.
  unfold extract_text_from_pdf, outcome, bind, emit, print, ret, raise in Hok.
  destruct (pdfplumber_pages dp file_path) as [pages [e|]]; cbn in Hok.
  - destruct (fitz_pages dp file_path) as [pages2 [e2|]]; cbn in Hok.
    + discriminate.
    + injection Hok as <-. apply strip_idem.
  - injection Hok as <-. apply strip_idem.
Qed.

Lemma extract_text_stripped_witness :
  PyStr.strip ("Milestone camera guide" ++ nl ++ "page two")
  = "Milestone camera guide" ++ nl ++ "page two".
Proof.
  apply (extract_text_stripped Sample.processor "/d/manual.pdf"). reflexivity.
Defined.

(** X3: when the first extractor reads every page, the second one is
    not used and the text is the stripped concatenation of the non-empty
    page texts, a newline after each.  When the first extractor fails and
    the second succeeds, the text starts with what the first one had
    already read, followed by the text of the second. *)
Theorem extract_text_fallback (dp : DocumentProcessor) (file_path : string) :
  (forall pages,
     pdfplumber_pages dp file_path = (pages, None) ->
     extract_text_from_pdf dp file_path
     = ([EvPdfplumber file_path], inr (PyStr.strip (plumber_text pages)))) /\
  (forall pages e pages2,
     pdfplumber_pages dp file_path = (pages, Some e) ->
     fitz_pages dp file_path = (pages2, None) ->
     extract_text_from_pdf dp file_path
     = ([EvPdfplumber file_path;
         EvPrint ("Error with pdfplumber: " ++ exn_str e ++ ", trying PyMuPDF...");
         EvFitz file_path],
        inr (PyStr.strip (plumber_text pages ++ fitz_text pages2)))).
Proof.
  unfold extract_text_from_pdf, bind, emit, print, ret, plumber_text. split.
  - intros pages ->. reflexivity.
  - intros pages e pages2 -> H2. cbn. rewrite H2. cbn.
    now rewrite fold_add_fitz_page.
Qed.

Lemma extract_text_fallback_witness :
  extract_text_from_pdf Sample.recovering_processor "/d/manual.pdf"
  = ([EvPdfplumber "/d/manual.pdf";
      EvPrint "Error with pdfplumber: bad xref, trying PyMuPDF...";
      EvFitz "/d/manual.pdf"],
     inr ("half a page" ++ nl ++ "half a page" ++ nl ++ "second page")).
Proof.
  apply (proj2 (extract_text_fallback Sample.recovering_processor "/d/manual.pdf")
           [Some "half a page"] (Exception "bad xref")
           ["half a page"; "second page"]); reflexivity.
Defined.

(** ** Ingestion, continued *)

Lemma bind_ext {A B} (m : M A) (f g : A -> M B) :
  (forall a, f a = g a) -> bind m f = bind m g.
Proof. intros H. destruct m as [t [e|a]]; cbn; [reflexivity|now rewrite H]. Qed.

Lemma bind_assoc {A B C} (m : M A) (f : A -> M B) (g : B -> M C) :
  bind (bind m f) g = bind m (fun a => bind (f a) g).
Proof.
  destruct m as [t [e|a]]; cbn; [reflexivity|].
  destruct (f a) as [t' [e'|b]]; cbn; [reflexivity|].
  destruct (g b) as [t'' r]. now rewrite app_assoc.
Qed.

Lemma enumerate_snd {A} (start : nat) (l : list A) :
  map snd (enumerate start l) = l.
Proof.
  revert start. induction l as [|x l IH]; intros start; cbn; [reflexivity|].
  now rewrite IH.
Qed.

Lemma metadata_keys (filename file_path product_type : string) (i total : nat) :
  dom (chunk_metadata filename file_path product_type i total)
  = list_to_set ["source"; "file_path"; "product_type"; "chunk_index"; "total_chunks"].
Proof.
  unfold chunk_metadata. rewrite !dom_insert_L, dom_empty_L. cbn. set_solver.
Qed.

(** X4: a successful [process_document] means that the path exists and
    ends in ".pdf" (letter case ignored) and that the extracted text is
    not empty; the records hold the chunks of the splitter, one record
    per chunk in the splitter's order, each with the path as "file_path"
    and with exactly the five metadata keys. *)
Theorem process_document_contents (dp : DocumentProcessor) (file_path : string)
    (product_type : option string) (docs : list Document)
    (Hok : outcome (process_document dp file_path product_type) = inr docs) :
  path_exists dp file_path = true /\
  PyStr.endswith ".pdf" (PyStr.lower file_path) = true /\
  exists text,
    outcome (extract_text_from_pdf dp file_path) = inr text /\
    text <> "" /\
    map page_content docs = split_text dp text /\
    Forall (fun d =>
              metadata d !! "file_path" = Some (VStr file_path) /\
              dom (metadata d)
              = list_to_set ["source"; "file_path"; "product_type";
                             "chunk_index"; "total_chunks"]) docs.
Proof.
  pose proof Hok as Hok'. revert Hok'. unfold process_document, outcome at 1.
  destruct (path_exists dp file_path); [|discriminate].
  destruct (PyStr.endswith ".pdf" (PyStr.lower file_path)); [|discriminate].
  cbn [negb].
  destruct (extract_text_from_pdf dp file_path) as [t [e|text]] eqn:Hex;
    [discriminate|].
  cbn [bind snd].
  destruct (PyStr.truthy (PyStr.strip text)) eqn:Htruthy; [|discriminate].
  cbn. intros H. injection H as <-.
  split; [reflexivity|]. split; [reflexivity|].
  exists text. split; [reflexivity|].
  split.
  { intros ->. discriminate Htruthy. }
  rewrite build_documents_map. split.
  - rewrite map_map. rewrite <- (enumerate_snd 0 (split_text dp text)) at 2.
    apply map_ext. intros [i c]. reflexivity.
  - apply List.Forall_forall. intros d Hd.
    apply in_map_iff in Hd as ([i c] & <- & _). cbn [metadata fst snd].
    split; [reflexivity|apply metadata_keys].
Qed.

Lemma process_document_contents_witness :
  map page_content Sample.manual_records
  = split_text Sample.processor ("Milestone camera guide" ++ nl ++ "page two").
Proof.
  assert (H : outcome (process_document Sample.processor "/d/manual.pdf" None)
              = inr Sample.manual_records) by reflexivity.
  destruct (process_document_contents _ _ _ _ H) as (_ & _ & text & Ht & _ & Hc & _).
  injection Ht as <-. exact Hc.
Defined.

(** The trace of the loop does not depend on the accumulator. *)
Lemma process_loop_trace (dp : DocumentProcessor) (file_paths : list string)
    (product_types : option (gmap string string)) :
  exists t, forall acc,
    process_loop dp file_paths product_types acc
    = (t, inr (acc ++ concat (map (chunks_or_none dp product_types) file_paths))%list).
Proof.
  induction file_paths as [|p rest IH].
  - exists []. intros acc. cbn. now rewrite app_nil_r.
  - destruct IH as (t & IH). cbn [process_loop map concat].
    unfold chunks_or_none at 1, outcome.
    destruct (process_document dp p (lookup_product_type product_types p))
      as [t0 [e0|ds]] eqn:Hpd.
    + eexists. intros acc.
      unfold try_catch, bind at 2, print, emit, ret. cbn [bind snd fst].
      unfold bind. rewrite IH. reflexivity.
    + eexists. intros acc.
      unfold try_catch, bind at 2, bind at 2, print, emit, ret. cbn [bind snd fst].
      unfold bind. rewrite IH. now rewrite <- (app_assoc acc ds).
Qed.

Lemma process_loop_app (dp : DocumentProcessor) (l1 l2 : list string)
    (product_types : option (gmap string string)) (acc : list Document) :
  process_loop dp (l1 ++ l2) product_types acc
  = bind (process_loop dp l1 product_types acc)
         (process_loop dp l2 product_types).
Proof.
  revert acc. induction l1 as [|p l1 IH]; intros acc.
  - cbn. destruct (process_loop dp l2 product_types acc). reflexivity.
  - cbn [app process_loop]. rewrite bind_assoc. apply bind_ext. intros a. apply IH.
Qed.

(** X5: a batch over two lists put end to end behaves like the batch
    over the first followed by the batch over the second: the printed
    output is the first output followed by the second, and the records
    are those of the first followed by those of the second. *)
Theorem process_multiple_documents_app (dp : DocumentProcessor)
    (l1 l2 : list string) (product_types : option (gmap string string)) :
  trace (process_multiple_documents dp (l1 ++ l2) product_types)
  = (trace (process_multiple_documents dp l1 product_types)
     ++ trace (process_multiple_documents dp l2 product_types))%list /\
  exists docs1 docs2,
    outcome (process_multiple_documents dp l1 product_types) = inr docs1 /\
    outcome (process_multiple_documents dp l2 product_types) = inr docs2 /\
    outcome (process_multiple_documents dp (l1 ++ l2) product_types)
    = inr (docs1 ++ docs2)%list.
Proof.
  unfold process_multiple_documents. rewrite process_loop_app.
  destruct (process_loop_trace dp l1 product_types) as (t1 & H1).
  destruct (process_loop_trace dp l2 product_types) as (t2 & H2).
  rewrite (H1 []). cbn [bind]. rewrite !H2. cbn [trace outcome fst snd app].
  split; [reflexivity|]. eexists _, _. repeat split.
Qed.

(** ** Retrieval, continued *)

Lemma list_filter_length {A} (p : A -> bool) (l : list A) :
  length (List.filter p l) <= length l.
Proof.
  induction l as [|x l IH]; cbn; [lia|]. destruct (p x); cbn; lia.
Qed.

(** X6: [search_documents] never raises and returns at most as many
    documents as the index search gave.  Without an index it prints
    "Vectorstore not initialized" and searches nothing; with one it makes
    exactly one search, for the query and [k] it was given; when that
    search raises it prints the error and returns the empty list. *)
Theorem search_documents_failsafe (vsm : VectorStoreManager) (query : string)
    (k : Z) (product_filter : option string) (score_threshold : float) :
  (exists docs,
     outcome (search_documents vsm query k product_filter score_threshold) = inr docs /\
     length docs <= length (index_results vsm query k product_filter)) /\
  (vectorstore vsm = None ->
   search_documents vsm query k product_filter score_threshold
   = ([EvPrint "Vectorstore not initialized"], inr [])) /\
  (forall vs,
     vectorstore vsm = Some vs ->
     List.filter is_search
       (trace (search_documents vsm query k product_filter score_threshold))
     = [EvSearch query k (search_filter product_filter)]) /\
  (forall vs e,
     vectorstore vsm = Some vs ->
     similarity_search_with_score vs query k (search_filter product_filter) = inl e ->
     search_documents vsm query k product_filter score_threshold
     = ([EvSearch query k (search_filter product_filter);
         EvPrint ("Error searching documents: " ++ exn_str e)], inr [])).
Proof.
  rewrite search_documents_cases. unfold index_results, outcome, trace.
  destruct (vectorstore vsm) as [vs|].
  - destruct (similarity_search_with_score vs query k (search_filter product_filter))
      as [e|results] eqn:Hcall; cbn [fst snd].
    + split; [exists []; split; [reflexivity|cbn; lia]|].
      split; [discriminate|]. split; [intros vs' _; reflexivity|].
      intros vs' e' Hvs He'. injection Hvs as <-. rewrite Hcall in He'.
      now injection He' as <-.
    + split.
      { eexists. split; [reflexivity|]. rewrite length_map. apply list_filter_length. }
      split; [discriminate|]. split; [intros vs' _; reflexivity|].
      intros vs' e' Hvs He'. injection Hvs as <-. rewrite Hcall in He'. discriminate.
  - split; [exists []; split; [reflexivity|cbn; lia]|].
    split; [reflexivity|]. split; discriminate.
Qed.

Lemma search_documents_failsafe_witness :
  search_documents {| vectorstore := None |} "reset" 5 None 0.5
  = ([EvPrint "Vectorstore not initialized"], inr []).
Proof.
  apply (proj1 (proj2 (search_documents_failsafe {| vectorstore := None |}
                         "reset" 5 None 0.5))).
  reflexivity.
Defined.

(** ** Answer synthesis, continued *)

Lemma retrieve_cases (agent : RAGAgent) (query : string)
    (product_filter : option string) (k : Z) :
  exists t,
    retrieve_relevant_documents agent query product_filter k
    = (t, inr (map fst (List.filter
                          (fun r => PrimFloat.leb (snd r) default_score_threshold)
                          (index_results (vector_store agent) query k product_filter)))) /\
    length (List.filter is_search t) <= 1 /\
    List.filter is_predict t = [].
Proof.
  unfold retrieve_relevant_documents. rewrite search_documents_cases.
  unfold index_results.
  destruct (vectorstore (vector_store agent)) as [vs|].
  - destruct (similarity_search_with_score vs query k (search_filter product_filter));
      eexists; (split; [reflexivity|]); cbn; split; (lia || reflexivity).
  - eexists. split; [reflexivity|]. cbn. split; (lia || reflexivity).
Qed.

(** X7: the response of [generate_answer] cites only chunks that the
    index returned with a distance of at most 0.5: its "sources" list is
    empty or holds, in the order of the index, the descriptors of a
    sub-sequence of the index results that are all within 0.5. *)
Theorem generate_answer_cites_close_chunks (agent : RAGAgent) (query : string)
    (product_filter : option string) (k : Z) :
  exists r sources kept,
    outcome (generate_answer agent query product_filter k) = inr r /\
    r !! "sources" = Some (RSources sources) /\
    sublist kept (index_results (vector_store agent) query k product_filter) /\
    Forall (within default_score_threshold) kept /\
    (sources = [] \/ sources = map (fun r => source_of (fst r)) kept).
Proof.
  set (kept := List.filter (fun r => PrimFloat.leb (snd r) default_score_threshold)
                 (index_results (vector_store agent) query k product_filter)).
  assert (Hsub : sublist kept
                   (index_results (vector_store agent) query k product_filter))
    by apply list_filter_sublist.
  assert (Hwithin : Forall (within default_score_threshold) kept).
  { apply List.Forall_forall. intros r Hr. apply filter_In in Hr. apply Hr. }
  destruct (retrieve_cases agent query product_filter k) as (t0 & Hret & _).
  fold kept in Hret.
  pose proof (generate_answer_path agent query product_filter k) as Hp.
  unfold outcome.
  inversion Hp as [Hl Heq|m t Hl Hr Heq|m t docs e' Hl Hr Hd He Heq
                  |m t docs resp Hl Hr Hd He Heq]; cbn [snd].
  - eexists _, [], kept. repeat split; try assumption. now left.
  - eexists _, [], kept. repeat split; try assumption. now left.
  - eexists _, [], kept. repeat split; try assumption. now left.
  - rewrite Hret in Hr. injection Hr as _ <-.
    eexists _, _, kept. split; [reflexivity|].
    split; [apply success_response_keys|].
    split; [exact Hsub|]. split; [exact Hwithin|]. right. now rewrite map_map.
Qed.












Lemma filter_app_single {A} (p : A -> bool) (t : list A) (x : A) :
  List.filter p (t ++ [x]) = (List.filter p t ++ if p x then [x] else [])%list.
Proof. rewrite List.filter_app. cbn. now destruct (p x). Qed.

(** X9: one call of [generate_answer] searches the index at most once
    and asks the model at most once.  When the model is there and the
    retrieval returns no document, the model is not asked and the answer
    is the fixed "couldn't find" message, which quotes the query. *)
Theorem generate_answer_calls (agent : RAGAgent) (query : string)
    (product_filter : option string) (k : Z) :
  length (List.filter is_search
            (trace (generate_answer agent query product_filter k))) <= 1 /\
  length (List.filter is_predict
            (trace (generate_answer agent query product_filter k))) <= 1 /\
  (forall model,
     llm agent = Some model ->
     outcome (retrieve_relevant_documents agent query product_filter k) = inr [] ->
     List.filter is_predict (trace (generate_answer agent query product_filter k)) = [] /\
     outcome (generate_answer agent query product_filter k)
     = inr (plain_response
              ("I couldn't find relevant information in the uploaded documents for your query about: '"
               ++ query
               ++ "'. Please make sure you have uploaded the appropriate manuals or SOPs, or try rephrasing your question.")
              product_filter)).
Proof.
  destruct (retrieve_cases agent query product_filter k) as (t0 & Hret & Hs & Hp0).
  pose proof (generate_answer_path agent query product_filter k) as Hp.
  unfold trace, outcome.
  inversion Hp as [Hl Heq|m t Hl Hr Heq|m t docs e' Hl Hr Hd He Heq
                  |m t docs resp Hl Hr Hd He Heq]; cbn [fst snd].
  - split; [cbn; lia|]. split; [cbn; lia|]. intros model Hm. congruence.
  - rewrite Hret in Hr. injection Hr as <- _.
    split; [exact Hs|]. split; [rewrite Hp0; cbn; lia|].
    intros model _ _. split; [exact Hp0|reflexivity].
  - rewrite Hret in Hr. injection Hr as <- Hdocs.
    rewrite !filter_app_single, !length_app, Hp0. cbn.
    split; [lia|]. split; [lia|].
    intros model _ Hnone. rewrite Hret in Hnone. cbn in Hnone.
    injection Hnone as Hnone. congruence.
  - rewrite Hret in Hr. injection Hr as <- Hdocs.
    rewrite !filter_app_single, !length_app, Hp0. cbn.
    split; [lia|]. split; [lia|].
    intros model _ Hnone. rewrite Hret in Hnone. cbn in Hnone.
    injection Hnone as Hnone. congruence.
Qed.

(** Asked about a product without chunks in the sample index, the sample
    agent does not ask its model. *)
Lemma generate_answer_calls_witness :
  List.filter is_predict
    (trace (generate_answer Sample.agent "How do I reset the panel?"
              (Some "everbridge") 5)) = [].
Proof.
  refine (proj1 (proj2 (proj2 (generate_answer_calls Sample.agent
            "How do I reset the panel?" (Some "everbridge") 5))
            {| predict := fun _ => inr "  Step 1. Press reset.  " |} _ _)).
  - reflexivity.
  - vm_compute. reflexivity.
Defined.

(** ** The query form *)

Lemma bind_ret_l {A B} (a : A) (f : A -> M B) : bind (ret a) f = f a.
Proof. unfold bind, ret. now destruct (f a). Qed.

Lemma validate_query_cases (query : string) :
  (acceptable query /\ validate_query query = validation_result true "Query is valid.")
  \/ (~ acceptable query /\
      exists message, validate_query query = validation_result false message).
Proof.
  unfold validate_query, acceptable.
  destruct (negb (PyStr.truthy query)
            || (String.length (PyStr.strip query) <? 3)) eqn:Hshort.
  - right. split; [|eexists; reflexivity]. intros [H _].
    apply orb_true_iff in Hshort as [Ht|Hs].
    + destruct query; [cbn in H; lia|discriminate].
    + apply Nat.ltb_lt in Hs. lia.
  - apply orb_false_iff in Hshort as [_ Hs]. apply Nat.ltb_ge in Hs.
    destruct (Nat.ltb_spec 1000 (String.length query)) as [Hl|Hl].
    + right. split; [intros [_ H]; lia|eexists; reflexivity].
    + left. split; [split; assumption|reflexivity].
Qed.

Lemma write_sources_ok (docs : list Document) (start : nat) :
  exists t, write_sources (enumerate start (map source_of docs)) = (t, inr tt).
Proof.
  revert start. induction docs as [|d docs IH]; intros start.
  - exists []. reflexivity.
  - destruct (IH (S start)) as (t & Ht). cbn [map enumerate write_sources].
    rewrite Ht. eexists. reflexivity.
Qed.

(** X10: a query that [validate_query] rejects leaves the session as
    it was.  For an accepted query the form calls [generate_answer] with
    the filter "all" turned into no filter and with [search_k] (5 when
    unset).  If the session holds a conversation history, the form then
    returns without raising, having appended exactly one entry, the
    question with the response, and having left [search_k] alone.  If
    the session holds none, the form raises [AttributeError], after the
    search and the model call have been made and before anything of the
    answer is shown. *)
Theorem ask_question_session (st : session_state) (question product_filter : string)
    (agent : RAGAgent) :
  (~ acceptable question ->
   outcome (ask_question st question product_filter agent) = inr st) /\
  (acceptable question ->
   forall history,
     conversation_history st = Some history ->
     exists r,
       outcome (generate_answer agent question (form_filter product_filter)
                  (match search_k st with Some k => k | None => 5%Z end)) = inr r /\
       outcome (ask_question st question product_filter agent)
       = inr {| search_k := search_k st;
                conversation_history := Some (history ++ [(question, r)])%list |}) /\
  (acceptable question ->
   conversation_history st = None ->
   ask_question st question product_filter agent
   = (EvStSpinner "Searching documents and generating answer..."
      :: trace (generate_answer agent question (form_filter product_filter)
                  (match search_k st with Some k => k | None => 5%Z end)),
      inl (AttributeError "conversation_history"))).
Proof.
  unfold ask_question.
  destruct (validate_query_cases question) as [[Hacc Hv]|[Hrej (message & Hv)]];
    rewrite Hv.
  2:{ change (dict_index (validation_result false message) "valid")
        with (@ret value (VBool false)).
      rewrite bind_ret_l. cbn [value_truthy negb].
      change (dict_index (validation_result false message) "message")
        with (@ret value (VStr message)).
      rewrite bind_ret_l.
      split; [reflexivity|]. split; intros; contradiction. }
  change (dict_index (validation_result true "Query is valid.") "valid")
    with (@ret value (VBool true)).
  rewrite bind_ret_l. cbn [value_truthy negb].
  replace (if negb (String.eqb product_filter "all")
           then Some product_filter else None)
    with (form_filter product_filter)
    by (unfold form_filter; now destruct (String.eqb product_filter "all")).
  set (k := match search_k st with Some k => k | None => 5%Z end).
  pose proof (generate_answer_path agent question (form_filter product_filter) k) as Hp.
  assert (Hshape : exists tg r answer docs,
            generate_answer agent question (form_filter product_filter) k
              = (tg, inr r) /\
            r !! "answer" = Some (RVal (VStr answer)) /\
            r !! "sources" = Some (RSources (map source_of docs))).
  { inversion Hp as [Hl Heq|m t Hl Hr Heq|m t docs e' Hl Hr Hd He Heq
                    |m t docs resp Hl Hr Hd He Heq].
    - eexists _, _, _, []. split; [reflexivity|]. split; reflexivity.
    - eexists _, _, _, []. split; [reflexivity|]. split; reflexivity.
    - eexists _, _, _, []. split; [reflexivity|]. split; reflexivity.
    - eexists _, _, _, docs. split; [reflexivity|].
      split; apply success_response_keys. }
  destruct Hshape as (tg & r & answer & docs & Hg & Ha & Hs).
  rewrite Hg. clear Hp Hg. unfold read_history.
  split; [intros; contradiction|]. split.
  - intros _ history Hh. rewrite Hh. exists r. split; [reflexivity|].
    unfold outcome. cbn [bind emit ret]. unfold response_index.
    rewrite Ha. cbn [bind emit ret]. rewrite Hs. cbn [bind emit ret].
    destruct docs as [|d docs]; [reflexivity|].
    destruct (write_sources_ok (d :: docs) 1) as (tw & Hw).
    cbn [rvalue_truthy rvalue_sources map bind emit ret].
    cbn [map] in Hw. rewrite Hw. reflexivity.
  - intros _ Hh. rewrite Hh. cbn [bind emit ret raise trace fst].
    now rewrite app_nil_r.
Qed.

(** With an empty history the sample session gains its first entry; a
    session without the attribute makes the form raise. *)
Lemma ask_question_session_witness :
  (exists r,
     outcome (ask_question {| search_k := None; conversation_history := Some [] |}
                "How do I reset the panel?" "all" Sample.agent)
     = inr {| search_k := None;
              conversation_history := Some [("How do I reset the panel?", r)] |}) /\
  outcome (ask_question {| search_k := None; conversation_history := None |}
             "How do I reset the panel?" "all" Sample.agent)
  = inl (AttributeError "conversation_history").
Proof.
  assert (Hacc : acceptable "How do I reset the panel?")
    by (unfold acceptable; vm_compute; lia).
  split.
  - destruct (proj1 (proj2 (ask_question_session
                {| search_k := None; conversation_history := Some [] |}
                "How do I reset the panel?" "all" Sample.agent)) Hacc [] eq_refl)
      as (r & _ & Hout).
    exists r. exact Hout.
  - rewrite (proj2 (proj2 (ask_question_session
                {| search_k := None; conversation_history := None |}
                "How do I reset the panel?" "all" Sample.agent)) Hacc eq_refl).
    reflexivity.
Defined.

(** ** Product help *)

Lemma detect_product_type_supported (text filename : string) :
  In (detect_product_type text filename) supported_products.
Proof.
  unfold detect_product_type, supported_products.
  repeat match goal with |- context [if ?b then _ else _] => destruct b end;
    cbn; tauto.
Qed.

Lemma help_default_iff (product_type : string) :
  get_product_specific_help product_type = default_help
  <-> ~ In product_type supported_products.
Proof.
  unfold get_product_specific_help, help_text, default_help, supported_products.
  repeat (rewrite lookup_insert; case_decide;
          [subst; split; [intros Heq; discriminate Heq
                         |intros Hn; exfalso; apply Hn; cbn; tauto]|]).
  rewrite lookup_empty. split; [|reflexivity].
  intros _ [Hin|[Hin|[Hin|[Hin|[]]]]]; congruence.
Qed.

(** X11: [get_product_specific_help] gives the general fallback text
    exactly for the product types outside the four supported ones; so
    every category that [detect_product_type] can return has a help text
    of its own. *)
Theorem product_help_specific (product_type : string) :
  (get_product_specific_help product_type = default_help
   <-> ~ In product_type supported_products) /\
  forall text filename,
    get_product_specific_help (detect_product_type text filename) <> default_help.
Proof.
  split; [apply help_default_iff|].
  intros text filename H. apply help_default_iff in H. apply H.
  apply detect_product_type_supported.
Qed.

(** ** Index management *)

(** X12: [add_documents] never raises.  Without an index it returns
    False after printing "Vectorstore not initialized"; with one it
    returns True exactly when both the addition and the persisting
    succeed, and then prints how many documents were added. *)
Theorem add_documents_outcome (backend : Chroma -> ChromaBackend)
    (vsm : VectorStoreManager) (documents : list Document) :
  (exists b, outcome (add_documents backend vsm documents) = inr b) /\
  (vectorstore vsm = None ->
   add_documents backend vsm documents
   = ([EvPrint "Vectorstore not initialized"], inr false)) /\
  (forall vs,
     vectorstore vsm = Some vs ->
     (outcome (add_documents backend vsm documents) = inr true
      <-> chroma_add_documents (backend vs) documents = inr tt
          /\ chroma_persist (backend vs) = inr tt) /\
     (outcome (add_documents backend vsm documents) = inr true ->
      trace (add_documents backend vsm documents)
      = [EvPrint ("Added " ++ PyStr.of_nat (length documents)
                  ++ " documents to vectorstore")])).
Proof.
  unfold add_documents, outcome, trace.
  destruct (vectorstore vsm) as [vs|].
  - split; [|split; [discriminate|]].
    + destruct (chroma_add_documents (backend vs) documents) as [e|[]];
        [eexists; reflexivity|].
      destruct (chroma_persist (backend vs)) as [e|[]]; eexists; reflexivity.
    + intros vs' Hvs. injection Hvs as <-.
      destruct (chroma_add_documents (backend vs) documents) as [e|[]].
      { cbn. split; [split; [discriminate|intros [? _]; discriminate]|discriminate]. }
      destruct (chroma_persist (backend vs)) as [e|[]].
      { cbn. split; [split; [discriminate|intros [_ ?]; discriminate]|discriminate]. }
      cbn. split; [split; [auto|reflexivity]|reflexivity].
  - split; [eexists; reflexivity|]. split; [reflexivity|discriminate].
Qed.

Lemma add_documents_outcome_witness :
  outcome (add_documents (fun _ => list_backend Sample.index) Sample.manager
             Sample.manual_records) = inr true.
Proof.
  apply (proj1 (proj2 (proj2 (add_documents_outcome
           (fun _ => list_backend Sample.index) Sample.manager
           Sample.manual_records)) (ListIndex.as_chroma Sample.index) eq_refl)).
  split; reflexivity.
Defined.

(** X13: [get_document_count] never raises: it gives the count of the
    collection, and 0 when there is no index (silently) or when counting
    raises (after printing the error). *)
Theorem get_document_count_outcome (backend : Chroma -> ChromaBackend)
    (vsm : VectorStoreManager) :
  (vectorstore vsm = None -> get_document_count backend vsm = ([], inr 0%Z)) /\
  (forall vs n,
     vectorstore vsm = Some vs -> chroma_count (backend vs) = inr n ->
     get_document_count backend vsm = ([], inr n)) /\
  (forall vs e,
     vectorstore vsm = Some vs -> chroma_count (backend vs) = inl e ->
     get_document_count backend vsm
     = ([EvPrint ("Error getting document count: " ++ exn_str e)], inr 0%Z)).
Proof.
  unfold get_document_count. repeat split.
  - intros ->. reflexivity.
  - intros vs n -> Hn. unfold try_catch, lift. now rewrite Hn.
  - intros vs e -> He. unfold try_catch, lift. now rewrite He.
Qed.

Lemma get_document_count_outcome_witness :
  get_document_count (fun _ => list_backend Sample.index) Sample.manager
  = ([], inr 3%Z).
Proof.
  apply (proj1 (proj2 (get_document_count_outcome
           (fun _ => list_backend Sample.index) Sample.manager))
           (ListIndex.as_chroma Sample.index) 3%Z); reflexivity.
Defined.








(** What [_initialize_vectorstore] comes to. *)
Lemma initialize_vectorstore_cases (env : StoreEnv) (directory : string)
    (emb : embeddings) :
  initialize_vectorstore env directory emb =
  match makedirs env directory with
  | inl e => ([], inl e)
  | inr _ =>
      match chroma_new env directory emb with
      | inr vs => ([], inr {| vectorstore := Some vs |})
      | inl e => ([EvPrint ("Error initializing vectorstore: " ++ exn_str e)],
                  inr {| vectorstore := None |})
      end
  end.
Proof.
  unfold initialize_vectorstore, bind, lift, try_catch, print, emit, ret.
  destruct (makedirs env directory) as [e|[]]; [reflexivity|].
  destruct (chroma_new env directory emb); reflexivity.
Qed.

(** X15: [clear_vectorstore] never raises and never changes the
    directory, the embeddings or the OpenAI flag.  It returns True
    exactly when the removal of an existing directory and the creation of
    the directory both succeed, and the manager then holds the index that
    the Chroma constructor gave, or none if that constructor raised;
    when it returns False the manager is unchanged. *)
Theorem clear_vectorstore_outcome (env : StoreEnv) (self : ManagerState) :
  exists b self',
    outcome (clear_vectorstore env self) = inr (b, self') /\
    persist_directory self' = persist_directory self /\
    use_openai self' = use_openai self /\
    store_embeddings self' = store_embeddings self /\
    (b = true
     <-> (dir_exists env (persist_directory self) = true ->
          rmtree env (persist_directory self) = inr tt)
         /\ makedirs env (persist_directory self) = inr tt) /\
    (b = true ->
     core self' = fresh_core env (persist_directory self) (store_embeddings self)) /\
    (b = false -> self' = self).
Proof.
  unfold clear_vectorstore, outcome, fresh_core.
  rewrite initialize_vectorstore_cases.
  destruct (dir_exists env (persist_directory self)).
  - destruct (rmtree env (persist_directory self)) as [e|[]].
    { exists false, self. cbn. repeat split; try discriminate.
      intros [H _]. specialize (H eq_refl). discriminate. }
    destruct (makedirs env (persist_directory self)) as [e|[]].
    { exists false, self. cbn. repeat split; try discriminate.
      intros [_ H]. discriminate. }
    destruct (chroma_new env (persist_directory self) (store_embeddings self));
      eexists true, _; cbn; repeat split; discriminate.
  - destruct (makedirs env (persist_directory self)) as [e|[]].
    { exists false, self. cbn. repeat split; try discriminate.
      intros [_ H]. discriminate. }
    destruct (chroma_new env (persist_directory self) (store_embeddings self));
      eexists true, _; cbn; repeat split; discriminate.
Qed.

(** X16: when the directory can be removed and created again but the
    Chroma constructor raises, [clear_vectorstore] still returns True;
    the manager is left without an index, so that every later search
    returns the empty list and every later addition returns False. *)
Theorem clear_vectorstore_without_index (env : StoreEnv) (self : ManagerState)
    (e : exn)
    (Hrm : dir_exists env (persist_directory self) = true ->
           rmtree env (persist_directory self) = inr tt)
    (Hmk : makedirs env (persist_directory self) = inr tt)
    (Hnew : chroma_new env (persist_directory self) (store_embeddings self) = inl e) :
  exists self',
    outcome (clear_vectorstore env self) = inr (true, self') /\
    In (EvPrint "Vectorstore cleared successfully") (trace (clear_vectorstore env self)) /\
    vectorstore (core self') = None /\
    (forall query k product_filter score_threshold,
       outcome (search_documents (core self') query k product_filter score_threshold)
       = inr []) /\
    (forall backend documents,
       outcome (add_documents backend (core self') documents) = inr false).
Proof.
  unfold clear_vectorstore, outcome, trace.
  rewrite initialize_vectorstore_cases, Hmk, Hnew.
  destruct (dir_exists env (persist_directory self)).
  - rewrite (Hrm eq_refl). eexists. cbn. split; [reflexivity|].
    split; [tauto|]. repeat split.
  - eexists. cbn. split; [reflexivity|]. split; [tauto|]. repeat split.
Qed.

Lemma clear_vectorstore_without_index_witness :
  exists self',
    outcome (clear_vectorstore SampleStore.broken_env SampleStore.state) = inr (true, self') /\
    vectorstore (core self') = None.
Proof.
  destruct (clear_vectorstore_without_index SampleStore.broken_env SampleStore.state
              (Exception "database is locked"))
    as (self' & Hout & _ & Hnone & _).
  - reflexivity.
  - reflexivity.
  - reflexivity.
  - exists self'. split; assumption.
Defined.

(** X17: when the constructor of the manager returns, the manager keeps
    the directory it was given; it uses the OpenAI embeddings exactly
    when they were asked for and their constructor returned, and the
    local ones otherwise (the fallback); the directory was created, and
    the manager holds the index that the Chroma constructor gave for the
    chosen embeddings, or none if that constructor raised. *)
Theorem new_manager_state (env : StoreEnv) (directory : string)
    (want_openai : bool) (st : ManagerState)
    (Hok : outcome (new_manager env directory want_openai) = inr st) :
  persist_directory st = directory /\
  (use_openai st = true
   <-> want_openai = true /\ openai_embeddings_new env = inr tt) /\
  store_embeddings st
  = (if use_openai st then OpenAIEmbeddings else LocalEmbeddings) /\
  (use_openai st = false -> local_embeddings_new env = inr tt) /\
  makedirs env directory = inr tt /\
  core st = fresh_core env directory (store_embeddings st).
Proof.
  revert Hok. unfold new_manager, get_local_embeddings, outcome, fresh_core.
  assert (Hinit : forall emb (flag : bool),
            snd (bind (initialize_vectorstore env directory emb)
                   (fun vsm => ret {| persist_directory := directory;
                                      use_openai := flag;
                                      store_embeddings := emb;
                                      core := vsm |})) = inr st ->
            makedirs env directory = inr tt /\
            st = {| persist_directory := directory; use_openai := flag;
                    store_embeddings := emb;
                    core := fresh_core env directory emb |}).
  { intros emb flag. rewrite initialize_vectorstore_cases. unfold fresh_core.
    destruct (makedirs env directory) as [e|[]]; [discriminate|].
    destruct (chroma_new env directory emb); cbn; intros H; injection H as <-;
      split; reflexivity. }
  destruct want_openai.
  - destruct (openai_embeddings_new env) as [e|[]].
    + destruct (local_embeddings_new env) as [e'|[]]; [discriminate|].
      cbn [try_catch bind lift ret print emit fst snd].
      intros H.
      destruct (Hinit LocalEmbeddings false) as (Hmk & ->).
      { revert H. cbn [bind fst snd].
        destruct (initialize_vectorstore env directory LocalEmbeddings) as [t [x|v]];
          cbn; [discriminate|]. intros H. exact H. }
      cbn. repeat split; try reflexivity; try assumption; try discriminate.
      intros [_ H']. discriminate.
    + cbn [try_catch bind lift ret print emit fst snd].
      intros H.
      destruct (Hinit OpenAIEmbeddings true) as (Hmk & ->).
      { revert H. cbn [bind fst snd].
        destruct (initialize_vectorstore env directory OpenAIEmbeddings) as [t [x|v]];
          cbn; [discriminate|]. intros H. exact H. }
      cbn. repeat split; try reflexivity; try assumption; try discriminate.
  - destruct (local_embeddings_new env) as [e'|[]]; [discriminate|].
    cbn [try_catch bind lift ret print emit fst snd].
    intros H.
    destruct (Hinit LocalEmbeddings false) as (Hmk & ->).
    { revert H. cbn [bind fst snd].
      destruct (initialize_vectorstore env directory LocalEmbeddings) as [t [x|v]];
        cbn; [discriminate|]. intros H. exact H. }
    cbn. repeat split; try reflexivity; try assumption; try discriminate.
    intros [H' _]. discriminate.
Qed.

Lemma new_manager_state_witness :
  exists st,
    outcome (new_manager SampleStore.broken_env "./data/vectorstore" true) = inr st /\
    use_openai st = false /\ store_embeddings st = LocalEmbeddings.
Proof.
  assert (H : outcome (new_manager SampleStore.broken_env "./data/vectorstore" true)
              = inr SampleStore.state) by reflexivity.
  exists SampleStore.state. split; [exact H|].
  destruct (new_manager_state _ _ _ _ H) as (_ & _ & Hemb & _).
  split; [reflexivity|exact Hemb].
Defined.

(** ** Batch ingestion with given categories *)

(** X18: in a batch, a document whose path is a key of [product_types]
    gets the category stored there on every one of its records, whatever
    its text says; a document whose path is not a key (or when no dict is
    given) is classified from its text and filename. *)
Theorem batch_category_override (dp : DocumentProcessor)
    (product_types : option (gmap string string)) (file_path : string) :
  (forall d category,
     product_types = Some d -> d !! file_path = Some category ->
     Forall (has_category category) (chunks_or_none dp product_types file_path)) /\
  (lookup_product_type product_types file_path = None ->
   forall text,
     outcome (extract_text_from_pdf dp file_path) = inr text ->
     Forall (has_category (detect_product_type text (PyStr.basename file_path)))
            (chunks_or_none dp product_types file_path)).
Proof.
  assert (Hcat : forall pt category,
            (forall text,
               outcome (extract_text_from_pdf dp file_path) = inr text ->
               match pt with
               | None => detect_product_type text (PyStr.basename file_path)
               | Some p => p
               end = category) ->
            lookup_product_type product_types file_path = pt ->
            Forall (has_category category) (chunks_or_none dp product_types file_path)).
  { intros pt category Hc Hl. unfold chunks_or_none. rewrite Hl.
    destruct (outcome (process_document dp file_path pt)) as [e|docs] eqn:Hout;
      [constructor|].
    apply process_document_success in Hout as (text & Htext & ->).
    rewrite (Hc text Htext). rewrite build_documents_map.
    apply List.Forall_forall. intros doc Hd.
    apply in_map_iff in Hd as ([i c] & <- & _). reflexivity. }
  split.
  - intros d category -> Hd. apply (Hcat (Some category)); [reflexivity|exact Hd].
  - intros Hnone text Htext. apply (Hcat None); [|exact Hnone].
    intros text' Htext'. rewrite Htext in Htext'. now injection Htext' as <-.
Qed.

(** Told that the readable sample manual is an Everbridge document, the
    batch tags its records everbridge although the text says Milestone. *)
Lemma batch_category_override_witness :
  Forall (has_category "everbridge")
    (chunks_or_none Sample.processor (Some {["/d/manual.pdf" := "everbridge"]})
       "/d/manual.pdf").
Proof.
  apply (proj1 (batch_category_override Sample.processor
                  (Some {["/d/manual.pdf" := "everbridge"]}) "/d/manual.pdf")
           {["/d/manual.pdf" := "everbridge"]} "everbridge"); reflexivity.
Defined.
